(** * borderless-parser: [parser.py] embedded and verified

    The file covers the three parts of [parser.py] that carry the logic:
    the document segmenter inside [parse_story], the per-batch enrichment
    ([process_story] under [try]/[except], sequential or through a thread
    pool) and the cursor-driven pagination loop of [fetch_full_stories].
    [save_stories_to_json] and [main], which use their result, follow.

    How the program is modelled:
    - Values decoded from JSON and the dicts the code builds are [PyVal];
      indexing, [.get], iteration, truthiness and slicing are the dynamic
      operations of Python, with the exceptions they raise.
    - A function that may raise returns a [result]; the [print] calls of
      the [except] clauses are kept as the list of exceptions printed.
    - The network is an input.  A listing request is answered by a
      [Transport] (payload to reply); the loop runs against a finite script
      of transports, one per request, and ends [Awaiting] when the script is
      used up while the loop wants another page.  Pages and the completion
      order of futures come from a [World].
    - A page is the tree BeautifulSoup builds ([Node]); the HTML parser
      itself is not modelled: the world hands over the tree it builds from
      the markup, or tells that it rejects the markup.  Characters are code
      points below 256.
    - The clock and the file system of [save_stories_to_json] are a [Host]
      and a map from paths to what is stored there: a whole JSON document,
      or the part of one that a failed [json.dump] left behind.

    Definitions come first (the program, then what it is meant to compute,
    then sample data), properties after. *)

From stdpp Require Import gmap strings list.

Set Warnings "-register-all".
#[local] Open Scope string_scope.
#[local] Open Scope list_scope.
#[local] Open Scope Z_scope.

(** ** Exceptions and the error monad *)

(** A Python [dict], [list], [str], [int], [bool] or [None], as produced by
    [json] decoding and by the dict literals of the source.  JSON numbers are
    kept as integers. *)
Inductive PyVal : Type :=
  | PyNone
  | PyBool (b : bool)
  | PyInt (z : Z)
  | PyStr (s : string)
  | PyList (l : list PyVal)
  | PyDict (m : gmap string PyVal).

(** The exceptions the modelled code can meet; every one of them is a
    subclass of Python's [Exception].  [ValueError msg arg] carries the
    constant part of its message and the value formatted into it;
    [RequestException name] is an exception [requests.get] raises, by the
    name of its class ([ConnectionError], [Timeout], ...);
    [ParserRejectedMarkup] is what BeautifulSoup raises on markup its
    parser cannot handle; [OtherError name] is any other exception class
    of the libraries and the operating system ([OSError],
    [RecursionError], ...), by its name. *)
Inductive exn : Type :=
  | RequestException (name : string)
  | HTTPError (status : Z)
  | JSONDecodeError
  | KeyError (key : string)
  | TypeError
  | AttributeError
  | ValueError (msg : string) (arg : PyVal)
  | ParserRejectedMarkup
  | OtherError (name : string).

Inductive result (A : Type) : Type :=
  | Ok (a : A)
  | Raise (e : exn).
Arguments Ok {A} a.
Arguments Raise {A} e.

Definition bind {A B} (m : result A) (k : A → result B) : result B :=
  match m with
  | Ok a => k a
  | Raise e => Raise e
  end.

Notation "'let*' x ':=' m 'in' k" := (bind m (fun x => k))
  (at level 10, x name, m at level 100, k at level 200).

Definition is_ok {A} (m : result A) : bool :=
  match m with Ok _ => true | Raise _ => false end.

Definition result_to_option {A} (m : result A) : option A :=
  match m with Ok a => Some a | Raise _ => None end.

(** ** Dynamic operations on Python values *)

Module Py.

(** [bool(v)]: what [if v:] and [if not v:] test. *)
Definition truthy (v : PyVal) : bool :=
  match v with
  | PyNone => false
  | PyBool b => b
  | PyInt z => negb (z =? 0)
  | PyStr s => negb (bool_decide (s = ""))
  | PyList l => negb (bool_decide (length l = 0%nat))
  | PyDict m => negb (bool_decide (size m = 0%nat))
  end.

(** [v[key]] for a string key. *)
Definition getitem (v : PyVal) (key : string) : result PyVal :=
  match v with
  | PyDict m =>
      match m !! key with
      | Some x => Ok x
      | None => Raise (KeyError key)
      end
  | _ => Raise TypeError
  end.

(** [v.get(key)]: only a dict has the method. *)
Definition get (v : PyVal) (key : string) : result PyVal :=
  match v with
  | PyDict m => Ok (default PyNone (m !! key))
  | _ => Raise AttributeError
  end.

Fixpoint chars (s : string) : list PyVal :=
  match s with
  | EmptyString => []
  | String c s' => PyStr (String c EmptyString) :: chars s'
  end.

(** The items [for x in v] goes through.  A dict yields its keys (their
    order is the map's enumeration order). *)
Definition iter (v : PyVal) : result (list PyVal) :=
  match v with
  | PyList l => Ok l
  | PyDict m => Ok (PyStr <$> (map_to_list m).*1)
  | PyStr s => Ok (chars s)
  | _ => Raise TypeError
  end.

(** [l[:k]]. *)
Definition slice_to {A} (l : list A) (k : Z) : list A :=
  if 0 <=? k then take (Z.to_nat k) l
  else take (Z.to_nat (Z.of_nat (length l) + k)) l.

(** [{**v, ...}]: [v] has to be a mapping. *)
Definition mapping (v : PyVal) : result (gmap string PyVal) :=
  match v with
  | PyDict m => Ok m
  | _ => Raise TypeError
  end.

Definition of_option (o : option string) : PyVal :=
  match o with
  | Some s => PyStr s
  | None => PyNone
  end.

End Py.

(** ** Strings: [str.strip()] *)

Module Str.

(** [str.isspace] on one character; a character is a code point below
    256. *)
Definition isspace (c : Ascii.ascii) : bool :=
  let n := Ascii.N_of_ascii c in
  (((9 <=? n) && (n <=? 13)) || ((28 <=? n) && (n <=? 32))
   || (n =? 133) || (n =? 160))%N.

Fixpoint lstrip (s : string) : string :=
  match s with
  | EmptyString => EmptyString
  | String c s' => if isspace c then lstrip s' else s
  end.

Definition rstrip (s : string) : string :=
  String.rev (lstrip (String.rev s)).

Definition strip (s : string) : string := rstrip (lstrip s).

Definition newline : string := String (Ascii.ascii_of_N 10) EmptyString.

Fixpoint join (l : list string) : string :=
  match l with
  | [] => ""
  | s :: l' => s +:+ join l'
  end.

Fixpoint last_char (s : string) : option Ascii.ascii :=
  match s with
  | EmptyString => None
  | String c EmptyString => Some c
  | String _ s' => last_char s'
  end.

End Str.

(** ** The page tree *)

(** What [BeautifulSoup(response.text, 'html.parser')] builds: text nodes,
    tags, and the string nodes [get_text] leaves out (comments, doctype,
    and in recent versions the strings of script and style), all under
    [Comment]. *)
Inductive Node : Type :=
  | Text (s : string)
  | Comment (s : string)
  | Tag (name : string) (attrs : gmap string string) (children : list Node).

Module Soup.

(** [element.name]: [None] on every string node. *)
Definition name (n : Node) : option string :=
  match n with
  | Tag nm _ _ => Some nm
  | _ => None
  end.

(** [element.children]. *)
Definition children (n : Node) : list Node :=
  match n with
  | Tag _ _ ch => ch
  | _ => []
  end.

Definition attrs (n : Node) : gmap string string :=
  match n with
  | Tag _ a _ => a
  | _ => ∅
  end.

Definition first_some {A B} (f : A → option B) : list A → option B :=
  fix go l :=
    match l with
    | [] => None
    | x :: l' => match f x with
                 | Some r => Some r
                 | None => go l'
                 end
    end.

(** The first tag called [nm] among a node and its descendants, in
    document order. *)
Fixpoint find_from (nm : string) (n : Node) : option Node :=
  match n with
  | Tag nm' _ ch =>
      if decide (nm' = nm) then Some n
      else first_some (find_from nm) ch
  | _ => None
  end.

(** [tag.find(nm)] on the children [ch] of [tag]. *)
Definition find (nm : string) (ch : list Node) : option Node :=
  first_some (find_from nm) ch.

(** The text strings below a node, in document order. *)
Fixpoint strings (n : Node) : list string :=
  match n with
  | Text s => [s]
  | Comment _ => []
  | Tag _ _ ch => flat_map strings ch
  end.

(** [tag.get_text(strip=True)]: every string stripped, the empty ones
    dropped, the rest joined with the empty separator. *)
Definition get_text_strip (n : Node) : string :=
  Str.join (filter (λ s, s ≠ "") (Str.strip <$> flat_map strings (children n))).

(** [tag.get(key)]. *)
Definition get (n : Node) (key : string) : option string := attrs n !! key.

(** [tag[key]]. *)
Definition getitem (n : Node) (key : string) : result string :=
  match attrs n !! key with
  | Some v => Ok v
  | None => Raise (KeyError key)
  end.

End Soup.

(** ** The document segmenter: the loop of [parse_story] *)

(** A [StorySection] dict: it always has its three keys, so [if
    current_section:] only tests that the variable is not [None]. *)
Record StorySection : Type := mkSection {
  title : string;
  content : string;
  images : list string;
}.

(** The three local variables of the walk. *)
Record SegState : Type := mkSeg {
  sections : list StorySection;
  current_section : option StorySection;
  main_image : option string;
}.

Module Segmenter.

Definition init : SegState :=
  {| sections := []; current_section := None; main_image := None |}.

(** [if not main_image:] on an [Optional[str]]. *)
Definition main_image_unset (o : option string) : bool :=
  negb (Py.truthy (Py.of_option o)).

(** [sections.append(current_section)] under [if current_section:]. *)
Definition flush (st : SegState) : list StorySection :=
  match current_section st with
  | Some cur => sections st ++ [cur]
  | None => sections st
  end.

(** The body of the inner loop, for one child [node] of a [div] (the
    source calls it [content]). *)
Definition content_step (st : SegState) (node : Node) : result SegState :=
  if decide (Soup.name node = Some "h1") then
    Ok {| sections := flush st;
          current_section :=
            Some {| title := Soup.get_text_strip node;
                    content := "";
                    images := [] |};
          main_image := main_image st |}
  else if decide (Soup.name node = Some "p") then
    match current_section st with
    | Some cur =>
        Ok {| sections := sections st;
              current_section :=
                Some {| title := title cur;
                        content := content cur +:+
                                   (Soup.get_text_strip node +:+ Str.newline);
                        images := images cur |};
              main_image := main_image st |}
    | None => Ok st
    end
  else if decide (Soup.name node = Some "figure") then
    match Soup.find "img" (Soup.children node) with
    | Some img =>
        if Py.truthy (Py.of_option (Soup.get img "src")) then
          let* img_url := Soup.getitem img "src" in
          let main' :=
            if main_image_unset (main_image st) then Some img_url
            else main_image st in
          match current_section st with
          | Some cur =>
              Ok {| sections := sections st;
                    current_section :=
                      Some {| title := title cur;
                              content := content cur;
                              images := images cur ++ [img_url] |};
                    main_image := main' |}
          | None =>
              Ok {| sections := sections st;
                    current_section := None;
                    main_image := main' |}
          end
        else Ok st
    | None => Ok st
    end
  else Ok st.

(** A [for] loop whose body may raise. *)
Fixpoint for_each {S A} (body : S → A → result S) (st : S) (l : list A)
    : result S :=
  match l with
  | [] => Ok st
  | x :: l' => let* st' := body st x in for_each body st' l'
  end.

(** The body of the outer loop, for one child [element] of the article. *)
Definition element_step (st : SegState) (element : Node) : result SegState :=
  if decide (Soup.name element = Some "a") then Ok st
  else if decide (Soup.name element = Some "div") then
    for_each content_step st (Soup.children element)
  else Ok st.

(** Lines 158-199: the walk over [article.children] and the final
    append. *)
Definition segment (article : Node)
    : result (list StorySection * option string) :=
  let* st := for_each element_step init (Soup.children article) in
  Ok (flush st, main_image st).

End Segmenter.

(** ** The network *)

(** What [requests.get] gives back: it raises an exception of its own, of
    the class [name] (no connection, a timeout, too many redirects, ...),
    or answers with a status code and a body. *)
Inductive HttpReply (B : Type) : Type :=
  | NoReply (name : string)
  | Reply (status : Z) (body : B).
Arguments NoReply {B} name.
Arguments Reply {B} status body.

(** The listing endpoint as one request sees it: from the payload of
    [create_request_payload] to the reply, whose body is the decoded JSON
    document ([None] when the body is not JSON). *)
Definition Transport : Type := PyVal → HttpReply (option PyVal).

(** The rest of the outside world: the page served for a slug, and the
    order in which the futures of the [n]-th batch complete.  The body of a
    page is what [BeautifulSoup(response.text, 'html.parser')] makes of it:
    the children of the document root, or [None] when the parser rejects
    the markup. *)
Record World : Type := mkWorld {
  page : PyVal → HttpReply (option (list Node));
  completion : nat → list PyVal → list PyVal;
}.

(** [as_completed] yields every submitted future once. *)
Definition fair (w : World) : Prop :=
  ∀ n items, completion w n items ≡ₚ items.

(** What parallel mode needs from the caller and the executor: a pool
    width [ThreadPoolExecutor] accepts, and every future completing once.
    Sequential mode needs nothing. *)
Definition pool_ok (w : World) (parallel : bool) (max_workers : Z) : Prop :=
  parallel = true → 0 < max_workers ∧ fair w.

(** [response.raise_for_status()]. *)
Definition raise_for_status (status : Z) : result unit :=
  if (400 <=? status) && (status <? 600) then Raise (HTTPError status)
  else Ok tt.

Definition create_request_payload (lang : string) (limit : Z)
    (types : list string) (cursor : PyVal) : PyVal :=
  let query : gmap string PyVal :=
    {[ "lang" := PyStr lang;
       "limit" := PyInt limit;
       "types" := PyList (PyStr <$> types) ]} in
  let meta : gmap string PyVal :=
    {[ "values" :=
         PyDict {[ "cursor.createdAt" := PyList [PyStr "Date"] ]} ]} in
  let query' :=
    if Py.truthy cursor then <["cursor" := cursor]> query else query in
  PyDict {[ "0" := PyDict {[ "json" := PyDict query';
                             "meta" := PyDict meta ]} ]}.

(** The URL and the headers are constants, so the reply depends on the
    payload only. *)
Definition fetch_stories (send : Transport) (lang : string) (limit : Z)
    (types : list string) (cursor : PyVal) : result PyVal :=
  let payload := create_request_payload lang limit types cursor in
  match send payload with
  | NoReply name => Raise (RequestException name)
  | Reply status body =>
      let* _ := raise_for_status status in
      let* data := match body with
                   | Some d => Ok d
                   | None => Raise JSONDecodeError
                   end in
      let* d0 := Py.getitem data "0" in
      let* d1 := Py.getitem d0 "result" in
      let* d2 := Py.getitem d1 "data" in
      Py.getitem d2 "json"
  end.

(** ** [parse_story] and [process_story] *)

Definition section_value (s : StorySection) : PyVal :=
  PyDict {[ "title" := PyStr (title s);
            "content" := PyStr (content s);
            "images" := PyList (PyStr <$> images s) ]}.

(** The dict [parse_story] returns: the four metadata entries are commented
    out in the source. *)
Definition parsed_story (secs : list StorySection) (img : option string)
    : PyVal :=
  PyDict {[ "sections" := PyList (section_value <$> secs);
            "mainImage" := Py.of_option img ]}.

(** Lines 152-215, on the fetched markup. *)
Definition parse_markup (slug : PyVal) (soup : list Node) : result PyVal :=
  match Soup.find "article" soup with
  | None => Raise (ValueError "Could not find article content for slug: " slug)
  | Some article =>
      let* parsed := Segmenter.segment article in
      Ok (parsed_story parsed.1 parsed.2)
  end.

Definition parse_story (w : World) (slug : PyVal) : result PyVal :=
  match page w slug with
  | NoReply name => Raise (RequestException name)
  | Reply status markup =>
      let* _ := raise_for_status status in
      let* soup := match markup with
                   | Some soup => Ok soup
                   | None => Raise ParserRejectedMarkup
                   end in
      parse_markup slug soup
  end.

Definition process_story (w : World) (story : PyVal) : result PyVal :=
  let* slug := Py.getitem story "slug" in
  let* parsed_content := parse_story w slug in
  let* base := Py.mapping story in
  let* secs := Py.getitem parsed_content "sections" in
  let* img := Py.getitem parsed_content "mainImage" in
  Ok (PyDict (<["mainImage" := img]> (<["sections" := secs]> base))).

(** ** One batch *)

(** The [try]/[except Exception] around one item: the record is appended to
    [batch_stories], or the exception is printed. The state is
    [(batch_stories, printed)]. *)
Definition try_story (w : World) (acc : list PyVal * list exn)
    (story : PyVal) : list PyVal * list exn :=
  match process_story w story with
  | Ok full_story => (acc.1 ++ [full_story], acc.2)
  | Raise e => (acc.1, acc.2 ++ [e])
  end.

(** Lines 249-274 for the [n]-th listing response. *)
Definition process_batch (w : World) (parallel : bool) (max_workers : Z)
    (n : nat) (stories_response : PyVal) : result (list PyVal * list exn) :=
  if parallel then
    if max_workers <=? 0 then
      Raise (ValueError "max_workers must be greater than 0" PyNone)
    else
      let* items_value := Py.getitem stories_response "items" in
      let* items := Py.iter items_value in
      Ok (foldl (try_story w) ([], []) (completion w n items))
  else
    let* items_value := Py.getitem stories_response "items" in
    let* items := Py.iter items_value in
    Ok (foldl (try_story w) ([], []) items).

(** ** The pagination loop of [fetch_full_stories] *)

(** Which of the two [return] statements ended the run. *)
Inductive ReturnSite : Type :=
  | BudgetReached
  | ListingExhausted.

(** How a run over a finite script of listing replies ends: the function
    returns, raises, or is about to send a request the script has no reply
    for. *)
Inductive Outcome : Type :=
  | Returned (site : ReturnSite) (stories : list PyVal)
  | Raised (e : exn)
  | Awaiting.

Inductive Step : Type :=
  | Continue (cursor : PyVal) (all_stories : list PyVal)
  | Stop (o : Outcome).

Definition batch_size : Z := 10.

(** [count != -1 and len(all_stories) >= count]. *)
Definition budget_reached (count : Z) (all_stories : list PyVal) : bool :=
  negb (count =? -1) && (count <=? Z.of_nat (length all_stories)).

(** One turn of [while True], with what it printed. *)
Definition iteration (w : World) (count : Z) (parallel : bool)
    (max_workers : Z) (send : Transport) (n : nat) (cursor : PyVal)
    (all_stories : list PyVal) : Step * list exn :=
  match fetch_stories send "en" batch_size ["Bachelor"] cursor with
  | Raise e => (Stop (Raised e), [])
  | Ok stories_response =>
      match process_batch w parallel max_workers n stories_response with
      | Raise e => (Stop (Raised e), [])
      | Ok (batch_stories, printed) =>
          let all_stories := all_stories ++ batch_stories in
          if budget_reached count all_stories
          then (Stop (Returned BudgetReached (Py.slice_to all_stories count)),
                printed)
          else
            match Py.get stories_response "nextCursor" with
            | Raise e => (Stop (Raised e), printed)
            | Ok cursor' =>
                if Py.truthy cursor' then (Continue cursor' all_stories, printed)
                else (Stop (Returned ListingExhausted all_stories), printed)
            end
      end
  end.

Fixpoint fetch_loop (w : World) (count : Z) (parallel : bool)
    (max_workers : Z) (script : list Transport) (n : nat) (cursor : PyVal)
    (all_stories : list PyVal) (printed : list exn) : Outcome * list exn :=
  match script with
  | [] => (Awaiting, printed)
  | send :: script' =>
      match iteration w count parallel max_workers send n cursor all_stories with
      | (Stop o, out) => (o, printed ++ out)
      | (Continue cursor' all_stories', out) =>
          fetch_loop w count parallel max_workers script' (S n) cursor'
            all_stories' (printed ++ out)
      end
  end.

Definition fetch_full_stories (w : World) (count : Z) (parallel : bool)
    (max_workers : Z) (script : list Transport) : Outcome * list exn :=
  fetch_loop w count parallel max_workers script 0 PyNone [] [].

(** ** What the segmenter is meant to compute

    The walk visits the children of the [div] children of the article, in
    document order.  A heading there starts a section that runs up to the
    next heading. *)

Module Outline.

Definition is_heading (n : Node) : Prop := Soup.name n = Some "h1".
Definition is_paragraph (n : Node) : Prop := Soup.name n = Some "p".
Definition is_figure (n : Node) : Prop := Soup.name n = Some "figure".

#[global] Instance is_heading_dec n : Decision (is_heading n).
Proof. unfold is_heading. apply _. Defined.
#[global] Instance is_paragraph_dec n : Decision (is_paragraph n).
Proof. unfold is_paragraph. apply _. Defined.
#[global] Instance is_figure_dec n : Decision (is_figure n).
Proof. unfold is_figure. apply _. Defined.

(** The nodes the two nested loops go through. *)
Definition walked (article : Node) : list Node :=
  flat_map
    (λ element, if decide (Soup.name element = Some "div")
                then Soup.children element else [])
    (Soup.children article).

(** The image a node contributes: the [src] of the first [img] below a
    figure, when it has one that is not empty. *)
Definition image_of (n : Node) : option string :=
  if decide (is_figure n) then
    match Soup.find "img" (Soup.children n) with
    | Some img =>
        match Soup.get img "src" with
        | Some url => if decide (url = "") then None else Some url
        | None => None
        end
    | None => None
    end
  else None.

(** The images met along a list of nodes, in order. *)
Definition images_seen (l : list Node) : list string := omap image_of l.

Fixpoint until_heading (l : list Node) : list Node :=
  match l with
  | [] => []
  | x :: l' => if decide (is_heading x) then [] else x :: until_heading l'
  end.

(** Every heading with the nodes that follow it up to the next heading. *)
Fixpoint chunks (l : list Node) : list (Node * list Node) :=
  match l with
  | [] => []
  | x :: l' =>
      if decide (is_heading x) then (x, until_heading l') :: chunks l'
      else chunks l'
  end.

(** The text of the paragraphs of a chunk, each closed by a newline. *)
Definition paragraph_text (body : list Node) : string :=
  Str.join ((λ p, Soup.get_text_strip p +:+ Str.newline)
              <$> filter is_paragraph body).

Definition section_of (c : Node * list Node) : StorySection :=
  {| title := Soup.get_text_strip c.1;
     content := paragraph_text c.2;
     images := images_seen c.2 |}.

Definition outline (l : list Node) : list StorySection :=
  section_of <$> chunks l.

(** The heading text as the specification words it: the text below the
    node put together, then trimmed at both ends. *)
Definition trimmed_flat_text (n : Node) : string :=
  Str.strip (Str.join (flat_map Soup.strings (Soup.children n))).

End Outline.

(** ** The walk as a pure transition function

    The state after one visited node, written without the error monad;
    [content_step_advance] below shows that the loop body computes it. *)

Section Advance.
Import Segmenter Outline.

Definition open_section (t : string) (st : SegState) : SegState :=
  {| sections := flush st;
     current_section := Some {| title := t; content := ""; images := [] |};
     main_image := main_image st |}.

Definition add_paragraph (t : string) (st : SegState) : SegState :=
  match current_section st with
  | Some cur =>
      {| sections := sections st;
         current_section :=
           Some {| title := title cur;
                   content := content cur +:+ (t +:+ Str.newline);
                   images := images cur |};
         main_image := main_image st |}
  | None => st
  end.

Definition add_image (url : string) (st : SegState) : SegState :=
  {| sections := sections st;
     current_section :=
       match current_section st with
       | Some cur =>
           Some {| title := title cur;
                   content := content cur;
                   images := images cur ++ [url] |}
       | None => None
       end;
     main_image :=
       if main_image_unset (main_image st) then Some url
       else main_image st |}.

(** The state after one visited node. *)
Definition advance (st : SegState) (n : Node) : SegState :=
  if decide (is_heading n) then open_section (Soup.get_text_strip n) st
  else if decide (is_paragraph n) then add_paragraph (Soup.get_text_strip n) st
  else match image_of n with
       | Some url => add_image url st
       | None => st
       end.

(** A section in progress, completed by the nodes up to the next heading. *)
Definition extend (cur : StorySection) (body : list Node) : StorySection :=
  {| title := title cur;
     content := content cur +:+ paragraph_text body;
     images := images cur ++ images_seen body |}.

Definition pending (st : SegState) (l : list Node) : list StorySection :=
  match current_section st with
  | Some cur => [extend cur (until_heading l)]
  | None => []
  end.

(** A main image, once set by the walk, is a non-empty string. *)
Definition main_image_wf (st : SegState) : Prop :=
  match main_image st with
  | Some url => url ≠ ""
  | None => True
  end.

End Advance.

(** ** What a batch is meant to produce *)

(** The merged records of the items whose enrichment succeeds, and the
    exceptions of the others, both in the order of the items. *)
Definition survivors (w : World) (items : list PyVal) : list PyVal :=
  omap (λ story, result_to_option (process_story w story)) items.

Definition failure_of (w : World) (story : PyVal) : option exn :=
  match process_story w story with
  | Ok _ => None
  | Raise e => Some e
  end.

Definition failures (w : World) (items : list PyVal) : list exn :=
  omap (failure_of w) items.

(** The listing request sent with [cursor], decoded. *)
Definition listing (send : Transport) (cursor : PyVal) : result PyVal :=
  fetch_stories send "en" batch_size ["Bachelor"] cursor.

(** A reply that [fetch_stories] decodes to [payload]: a status outside
    400-599 and a JSON body holding [payload] under "0", "result", "data",
    "json". *)
Definition enveloped (reply : HttpReply (option PyVal)) (payload : PyVal)
    : Prop :=
  ∃ status m0 m1 m2 m3,
    reply = Reply status (Some (PyDict m0))
    ∧ raise_for_status status = Ok tt
    ∧ m0 !! "0" = Some (PyDict m1)
    ∧ m1 !! "result" = Some (PyDict m2)
    ∧ m2 !! "data" = Some (PyDict m3)
    ∧ m3 !! "json" = Some payload.

(** A reply of [send] is a page of [k] items that all enrich, with a next
    cursor. *)
Definition full_page (w : World) (send : Transport) (k : nat) : Prop :=
  ∀ cursor, ∃ stories_response items_value items next,
    listing send cursor = Ok stories_response
    ∧ Py.getitem stories_response "items" = Ok items_value
    ∧ Py.iter items_value = Ok items
    ∧ length items = k
    ∧ Forall (λ story, is_ok (process_story w story) = true) items
    ∧ Py.get stories_response "nextCursor" = Ok next
    ∧ Py.truthy next = true.

(** No reply of [send] carries a next cursor. *)
Definition last_page (send : Transport) : Prop :=
  ∀ cursor stories_response next,
    listing send cursor = Ok stories_response →
    Py.get stories_response "nextCursor" = Ok next →
    Py.truthy next = false.

(** ** The worked example of the specification *)

Module Sample.

(** container → wrapper → [heading, paragraph, figure → img, heading,
    paragraph], for any texts and image source. *)
Definition heading (text : string) : Node := Tag "h1" ∅ [Text text].
Definition paragraph (text : string) : Node := Tag "p" ∅ [Text text].
Definition figure (src : string) : Node :=
  Tag "figure" ∅ [Tag "img" {[ "src" := src ]} []].

Definition article_of (t1 p1 src t2 p2 : string) : Node :=
  Tag "article" ∅
    [Tag "div" ∅
       [heading t1; paragraph p1; figure src; heading t2; paragraph p2]].

Definition heading_intro : Node := heading "Intro".
Definition paragraph_hello : Node := paragraph "Hello".
Definition figure_a : Node := figure "a.png".
Definition heading_next : Node := heading "Next".
Definition paragraph_world : Node := paragraph "World".

Definition article : Node :=
  article_of "Intro" "Hello" "a.png" "Next" "World".

Definition expected_sections : list StorySection :=
  [ {| title := "Intro"; content := "Hello" +:+ Str.newline;
       images := ["a.png"] |};
    {| title := "Next"; content := "World" +:+ Str.newline;
       images := [] |} ].

(** Variations: a figure or a paragraph ahead of the first heading, and a
    document without a heading. *)
Definition lead_figure_article : Node :=
  Tag "article" ∅
    [Tag "div" ∅
       [figure_a; heading_intro; figure "b.png"]].

Definition lead_figure_rest : Node :=
  Tag "article" ∅
    [Tag "div" ∅
       [heading_intro; figure "b.png"]].

Definition lead_paragraph_article : Node :=
  Tag "article" ∅
    [Tag "div" ∅
       [paragraph "Lead"; heading_intro; paragraph_hello]].

Definition lead_paragraph_rest : Node :=
  Tag "article" ∅
    [Tag "div" ∅ [heading_intro; paragraph_hello]].

Definition headless_article : Node :=
  Tag "article" ∅
    [Tag "div" ∅ [paragraph "Lead"; paragraph "More"]].

(** A world that serves the same page for every slug, with status 200, and
    completes futures in submission order. *)
Definition serving (soup : list Node) : World :=
  {| page := λ _, Reply 200 (Some soup); completion := λ _ items, items |}.

(** A summary as the listing returns it, cut down to two entries. *)
Definition story (slug : string) : PyVal :=
  PyDict {[ "slug" := PyStr slug; "title" := PyStr "A story" ]}.

(** The nested envelope [fetch_stories] unwraps. *)
Definition envelope (payload : PyVal) : PyVal :=
  PyDict {[ "0" :=
    PyDict {[ "result" :=
      PyDict {[ "data" := PyDict {[ "json" := payload ]} ]} ]} ]}.

Definition cursor1 : PyVal :=
  PyDict {[ "score" := PyInt 7; "createdAt" := PyStr "2024-05-01" ]}.

(** A listing reply with a next cursor, and one without. *)
Definition page_then (items : list PyVal) (next : PyVal) : Transport :=
  λ _, Reply 200 (Some (envelope
         (PyDict {[ "items" := PyList items; "nextCursor" := next ]}))).

Definition page_end (items : list PyVal) : Transport :=
  λ _, Reply 200 (Some (envelope (PyDict {[ "items" := PyList items ]}))).

Definition failing_listing : Transport := λ _, Reply 503 None.

(** A world where the page of the slug "gone" answers 404 and every other
    page holds the example article; futures complete in reverse order. *)
Definition patchy : World :=
  {| page := λ slug,
       match slug with
       | PyStr s => if decide (s = "gone") then Reply 404 (Some [])
                    else Reply 200 (Some [article])
       | _ => NoReply "ConnectionError"
       end;
     completion := λ _ items, reverse items |}.

(** The merged record of [story slug] in a world that serves the example
    article. *)
Definition merged (slug : string) : PyVal :=
  PyDict {[ "slug" := PyStr slug;
            "title" := PyStr "A story";
            "sections" := PyList (section_value <$> expected_sections);
            "mainImage" := PyStr "a.png" ]}.

End Sample.

(** ** The rest of [parser.py]: [save_stories_to_json] and [main] *)

Module Path.

(** [s.startswith(pre)] and [s.endswith(suf)]. *)
Fixpoint startswith (s pre : string) : bool :=
  match pre, s with
  | EmptyString, _ => true
  | String _ _, EmptyString => false
  | String c pre', String d s' => bool_decide (c = d) && startswith s' pre'
  end.

Fixpoint endswith (s suf : string) : bool :=
  if bool_decide (s = suf) then true
  else match s with
       | EmptyString => false
       | String _ s' => endswith s' suf
       end.

(** [os.path.join(a, b)] (posix). *)
Definition join (a b : string) : string :=
  if startswith b "/" then b
  else if bool_decide (a = "") || endswith a "/" then a +:+ b
  else a +:+ ("/" +:+ b).

End Path.

(** The machine [save_stories_to_json] runs on: the two readings of the
    clock, already formatted ([strftime("%Y%m%d_%H%M%S")] and
    [isoformat()]), and whether creating a directory, opening a file for
    writing, or writing a document to the open file raises.  [dump path
    document] stands for [json.dump] and the closing of the file at the end
    of the [with] block: it raises on a value the encoder cannot go through
    (nesting too deep, a string the encoding rejects) and when the write
    fails. *)
Record Host : Type := mkHost {
  strftime_now : string;
  isoformat_now : string;
  mkdir : string → option exn;
  open_write : string → option exn;
  dump : string → PyVal → option exn;
}.

(** What a path holds: the whole text of a JSON document, or only a
    beginning of it (nothing at all included), as a [json.dump] that raised
    leaves the file it was writing. *)
Inductive FileContent : Type :=
  | Whole (document : PyVal)
  | Partial (document : PyVal).

(** The object handed to [json.dump]. *)
Definition stories_document (timestamp : string) (stories : list PyVal)
    : PyVal :=
  PyDict {[ "metadata" :=
              PyDict {[ "timestamp" := PyStr timestamp;
                        "story_count" := PyInt (Z.of_nat (length stories)) ]};
            "stories" := PyList stories ]}.

(** The file name after the two [if]s of lines 315-321. *)
Definition json_filename (h : Host) (filename : option string) : string :=
  let filename :=
    match filename with
    | None => "stories_" +:+ (strftime_now h +:+ ".json")
    | Some f => f
    end in
  if negb (Path.endswith filename ".json") then filename +:+ ".json"
  else filename.

(** [files] maps a path to what is stored there.  The result is the
    returned path or the exception, and the files afterwards.  [open]
    creates or empties the file before anything is written, so a
    [json.dump] that raises leaves a part of the document at the path,
    whatever was there before. *)
Definition save_stories_to_json (h : Host) (stories : list PyVal)
    (output_dir : string) (filename : option string)
    (files : gmap string FileContent)
    : result string * gmap string FileContent :=
  match mkdir h output_dir with
  | Some e => (Raise e, files)
  | None =>
      let filepath := Path.join output_dir (json_filename h filename) in
      match open_write h filepath with
      | Some e => (Raise e, files)
      | None =>
          let document := stories_document (isoformat_now h) stories in
          match dump h filepath document with
          | Some e => (Raise e, <[filepath := Partial document]> files)
          | None => (Ok filepath, <[filepath := Whole document]> files)
          end
      end
  end.

(** What [main] prints, line by line. *)
Inductive Line : Type :=
  | ItemErrorLine (e : exn)
  | FetchedLine (n : nat)
  | SavedLine (path : string)
  | ErrorLine (e : exn).

(** [main] ends with what it printed and the files, or is still waiting for
    a listing reply. *)
Inductive MainRun : Type :=
  | Finished (lines : list Line) (files : gmap string FileContent)
  | Waiting (lines : list Line).

Definition main (w : World) (h : Host) (script : list Transport)
    (files : gmap string FileContent) : MainRun :=
  match fetch_full_stories w 20 true 3 script with
  | (Returned _ stories, printed) =>
      let lines := (ItemErrorLine <$> printed) ++ [FetchedLine (length stories)] in
      match save_stories_to_json h stories "data" None files with
      | (Ok saved_path, files') => Finished (lines ++ [SavedLine saved_path]) files'
      | (Raise e, files') => Finished (lines ++ [ErrorLine e]) files'
      end
  | (Raised e, printed) =>
      Finished ((ItemErrorLine <$> printed) ++ [ErrorLine e]) files
  | (Awaiting, printed) => Waiting (ItemErrorLine <$> printed)
  end.

(** ** Notions and sample data used to state the properties *)

(** Every reply of [send] decodes to a response with the items [items],
    with a next cursor ([more]) or without. *)
Definition serves (send : Transport) (items : list PyVal) (more : bool)
    : Prop :=
  ∀ cursor, ∃ stories_response items_value next,
    listing send cursor = Ok stories_response
    ∧ Py.getitem stories_response "items" = Ok items_value
    ∧ Py.iter items_value = Ok items
    ∧ Py.get stories_response "nextCursor" = Ok next
    ∧ Py.truthy next = more.

(** The cursor entry of a request payload: [payload["0"]["json"]["cursor"]]. *)
Definition payload_cursor (payload : PyVal) : result PyVal :=
  let* batch := Py.getitem payload "0" in
  let* query := Py.getitem batch "json" in
  Py.getitem query "cursor".

(** A string with no whitespace at either end. *)
Definition trimmed (s : string) : Prop :=
  (∀ c s', s = String c s' → Str.isspace c = false)
  ∧ (∀ c, Str.last_char s = Some c → Str.isspace c = false).

(** The nodes from the first heading on. *)
Fixpoint from_heading (l : list Node) : list Node :=
  match l with
  | [] => []
  | x :: l' => if decide (Outline.is_heading x) then l else from_heading l'
  end.

(** Only whitespace. *)
Fixpoint blank (s : string) : bool :=
  match s with
  | EmptyString => true
  | String c s' => Str.isspace c && blank s'
  end.

(** The three kinds of node the inner loop acts on. *)
Definition heeded (n : Node) : Prop :=
  Outline.is_heading n ∨ Outline.is_paragraph n ∨ Outline.is_figure n.

#[global] Instance heeded_dec n : Decision (heeded n).
Proof. unfold heeded. apply _. Defined.

(** How two turns, or two runs, of the two modes compare. *)
Definition same_outcome (a b : Outcome * list exn) : Prop :=
  a.2 ≡ₚ b.2
  ∧ match a.1, b.1 with
    | Returned BudgetReached l1, Returned BudgetReached l2 =>
        length l1 = length l2
    | Returned ListingExhausted l1, Returned ListingExhausted l2 => l1 ≡ₚ l2
    | Raised e1, Raised e2 => e1 = e2
    | Awaiting, Awaiting => True
    | _, _ => False
    end.

(** A transport that answers only a request whose cursor has the score
    of [Sample.cursor1], with a last page of [items]. *)
Definition only_cursor1 (items : list PyVal) : Transport :=
  λ payload,
    match payload_cursor payload with
    | Ok (PyDict m) =>
        match m !! "score" with
        | Some (PyInt 7) => Sample.page_end items payload
        | _ => NoReply "ConnectionError"
        end
    | _ => NoReply "ConnectionError"
    end.


(** A machine whose encoder gives up on every document. *)
Definition shallow : Host :=
  {| strftime_now := "20240501_120000";
     isoformat_now := "2024-05-01T12:00:00.000001";
     mkdir := λ _, None;
     open_write := λ _, None;
     dump := λ _ _, Some (OtherError "RecursionError") |}.

(** A world whose pages the HTML parser rejects, and one whose page
    requests time out. *)
Definition unparsable : World :=
  {| page := λ _, Reply 200 None; completion := λ _ items, items |}.

Definition unreachable : World :=
  {| page := λ _, NoReply "Timeout"; completion := λ _ items, items |}.

(** A paragraph with nested markup, under a heading. *)
Definition nested_paragraph : Node :=
  Tag "p" ∅ [Text "Hello "; Tag "b" ∅ [Text "World"]; Text " again "].

Definition nested_article : Node :=
  Tag "article" ∅ [Tag "div" ∅ [Sample.heading_intro; nested_paragraph]].

(** A node with at most one text string below it. *)
Definition plain (n : Node) : Prop :=
  (length (flat_map Soup.strings (Soup.children n)) ≤ 1)%nat.

(** ** [analysis.py]: the text [extract_scores] sends to the model *)

Module Analysis.

(** [f"{v}"]: a string is itself; the text of any other value is left to
    [other]. *)
Definition format (other : PyVal → string) (v : PyVal) : string :=
  match v with
  | PyStr s => s
  | _ => other v
  end.

(** [sep.join(l)]. *)
Fixpoint join_with (sep : string) (l : list string) : string :=
  match l with
  | [] => ""
  | [s] => s
  | s :: l' => s +:+ (sep +:+ join_with sep l')
  end.

(** A generator consumed to its end: the values, or the first exception. *)
Fixpoint collect {A B} (f : A → result B) (l : list A) : result (list B) :=
  match l with
  | [] => Ok []
  | x :: l' =>
      let* y := f x in
      let* ys := collect f l' in
      Ok (y :: ys)
  end.

(** Lines 17-21 of [extract_scores]. *)
Definition full_content (other : PyVal → string) (story : PyVal)
    : result string :=
  let* sections_value := Py.getitem story "sections" in
  let* sections := Py.iter sections_value in
  let* blocks :=
    collect
      (λ section,
         let* title := Py.getitem section "title" in
         let* content := Py.getitem section "content" in
         Ok (format other title +:+ (Str.newline +:+ format other content)))
      sections in
  Ok (join_with Str.newline blocks).

Definition no_scores : PyVal :=
  PyDict {[ "gpa" := PyNone; "scale" := PyNone; "sat" := PyNone;
            "ielts" := PyNone; "toefl" := PyNone ]}.

(** [extract_scores].  [model] stands for the [try] block: from the text
    sent as the user message to the decoded JSON answer, or the exception
    raised on the way (by the request, or by [json.loads]). *)
Definition extract_scores (model : string → result PyVal)
    (other : PyVal → string) (story : PyVal) : result PyVal :=
  let* content := full_content other story in
  match model content with
  | Ok scores => Ok scores
  | Raise _ =>
      let* _ := Py.getitem story "slug" in
      Ok no_scores
  end.

(** The text of a list of sections as the specification of the prompt has
    it: title, newline, body, the blocks separated by a newline. *)
Definition sections_text (secs : list StorySection) : string :=
  join_with Str.newline
    ((λ s, title s +:+ (Str.newline +:+ content s)) <$> secs).

End Analysis.

(** * Properties *)

(** ** Strings *)

Lemma append_cons (c : Ascii.ascii) (s t : string) :
  String c s +:+ t = String c (s +:+ t).
Proof. reflexivity. Qed.

Lemma append_nil_r (s : string) : s +:+ "" = s.
Proof. induction s as [|c s IH]; [done|]. by rewrite append_cons, IH. Qed.

Lemma append_assoc (s1 s2 s3 : string) :
  (s1 +:+ s2) +:+ s3 = s1 +:+ (s2 +:+ s3).
Proof. induction s1 as [|c s1 IH]; [done|]. by rewrite !append_cons, IH. Qed.

Lemma last_char_append_cons (s : string) (c : Ascii.ascii) (t : string) :
  Str.last_char (s +:+ String c t) = Str.last_char (String c t).
Proof.
  induction s as [|d s IH]; [done|].
  rewrite append_cons. cbn [Str.last_char]. rewrite IH.
  destruct (s +:+ String c t) eqn:E; [|done].
  destruct s; discriminate.
Qed.

Lemma last_char_newline (s : string) :
  Str.last_char (s +:+ Str.newline) = Str.last_char Str.newline.
Proof. apply last_char_append_cons. Qed.

Lemma last_char_append_nonempty (s t : string) :
  t ≠ "" → Str.last_char (s +:+ t) = Str.last_char t.
Proof. destruct t; [done|]. intros _. apply last_char_append_cons. Qed.

(** Text made of newline-closed pieces is empty or ends with a newline. *)
Lemma join_newline_closed (l : list string) :
  Forall (λ s, Str.last_char s = Some (Ascii.ascii_of_N 10)) l →
  Str.join l = "" ∨ Str.last_char (Str.join l) = Some (Ascii.ascii_of_N 10).
Proof.
  induction 1 as [|s l Hs _ IH]; [by left|]. simpl. right.
  destruct IH as [-> | IH].
  - by rewrite append_nil_r.
  - rewrite last_char_append_nonempty; [done|].
    intros E. by rewrite E in IH.
Qed.

(** ** The segmenter never raises, and runs as one pass over [walked] *)

Section SegmenterSteps.
Import Segmenter Outline.

Lemma content_step_advance (st : SegState) (n : Node) :
  content_step st n = Ok (advance st n).
Proof.
  unfold content_step, advance, image_of, is_heading, is_paragraph, is_figure.
  destruct (decide (Soup.name n = Some "h1")) as [Hh|Hh]; [done|].
  destruct (decide (Soup.name n = Some "p")) as [Hp|Hp].
  { unfold add_paragraph. by destruct (current_section st). }
  destruct (decide (Soup.name n = Some "figure")) as [Hf|Hf]; [|done].
  destruct (Soup.find "img" (Soup.children n)) as [img|]; [|done].
  unfold Soup.get, Soup.getitem.
  destruct (Soup.attrs img !! "src") as [url|] eqn:Hsrc; [|done].
  cbn [Py.of_option Py.truthy].
  destruct (decide (url = "")) as [->|Hne].
  { by rewrite bool_decide_eq_true_2. }
  rewrite bool_decide_eq_false_2 by done. cbn [negb bind].
  unfold add_image. by destruct (current_section st).
Qed.

Lemma for_each_foldl {S A} (body : S → A → result S) (f : S → A → S) :
  (∀ st x, body st x = Ok (f st x)) →
  ∀ l st, for_each body st l = Ok (foldl f st l).
Proof.
  intros Hbody l. induction l as [|x l IH]; intros st; [done|].
  cbn [for_each foldl]. rewrite Hbody. cbn [bind]. apply IH.
Qed.

Lemma element_step_advance (st : SegState) (element : Node) :
  element_step st element =
  Ok (foldl advance st
        (if decide (Soup.name element = Some "div")
         then Soup.children element else [])).
Proof.
  unfold element_step.
  destruct (decide (Soup.name element = Some "a")) as [Ha|Ha].
  { rewrite decide_False; [done|]. rewrite Ha. by intros [=]. }
  destruct (decide (Soup.name element = Some "div")); [|done].
  apply for_each_foldl, content_step_advance.
Qed.

Lemma walk_elements (els : list Node) (st : SegState) :
  for_each element_step st els =
  Ok (foldl advance st
        (flat_map (λ element, if decide (Soup.name element = Some "div")
                              then Soup.children element else []) els)).
Proof.
  revert st. induction els as [|el els IH]; intros st; [done|].
  cbn [for_each flat_map]. rewrite element_step_advance. cbn [bind].
  rewrite IH. by rewrite foldl_app.
Qed.

Lemma segment_walked (article : Node) :
  segment article =
  Ok (flush (foldl advance init (walked article)),
      main_image (foldl advance init (walked article))).
Proof. unfold segment, walked. by rewrite walk_elements. Qed.

End SegmenterSteps.

(** ** The walk computes the outline *)

Section WalkOutline.
Import Segmenter Outline.

Lemma extend_nil (cur : StorySection) : extend cur [] = cur.
Proof.
  destruct cur as [t c i]. unfold extend, paragraph_text, images_seen.
  cbn. by rewrite append_nil_r, app_nil_r.
Qed.

Lemma image_of_heading (n : Node) : is_heading n → image_of n = None.
Proof.
  unfold is_heading, image_of, is_figure. intros H.
  rewrite decide_False; [done|]. rewrite H. by intros [=].
Qed.

Lemma image_of_paragraph (n : Node) : is_paragraph n → image_of n = None.
Proof.
  unfold is_paragraph, image_of, is_figure. intros H.
  rewrite decide_False; [done|]. rewrite H. by intros [=].
Qed.

Lemma flush_walk (l : list Node) (st : SegState) :
  flush (foldl advance st l) = sections st ++ pending st l ++ outline l.
Proof.
  revert st. induction l as [|n l IH]; intros st.
  { unfold pending, flush. cbn. destruct (current_section st) as [cur|].
    - by rewrite extend_nil, app_nil_r.
    - by rewrite app_nil_r. }
  cbn [foldl]. rewrite IH. unfold advance, pending, outline.
  cbn [until_heading chunks]. destruct st as [secs cur mi].
  destruct (decide (is_heading n)) as [Hh|Hh].
  - cbn [open_section sections current_section fmap list_fmap].
    unfold flush. cbn [sections current_section]. destruct cur as [cur|].
    + rewrite extend_nil, <- !app_assoc. by do 2 f_equal.
    + reflexivity.
  - destruct (decide (is_paragraph n)) as [Hp|Hp].
    + unfold add_paragraph. cbn [sections current_section main_image].
      destruct cur as [cur|]; [|done].
      cbn [sections current_section]. do 2 f_equal.
      unfold extend, paragraph_text, images_seen. cbn [title content images].
      rewrite filter_cons_True by done.
      cbn [fmap list_fmap Str.join omap list_omap].
      rewrite (image_of_paragraph n Hp). by rewrite !append_assoc.
    + assert (Hbody : ∀ c, extend c (n :: until_heading l) =
                extend match image_of n with
                       | Some url =>
                           {| title := title c; content := content c;
                              images := images c ++ [url] |}
                       | None => c
                       end (until_heading l)).
      { intros c. unfold extend, paragraph_text, images_seen.
        rewrite filter_cons_False by done. cbn [omap list_omap].
        destruct (image_of n); cbn [title content images]; [|done].
        by rewrite <- app_assoc. }
      destruct (image_of n) as [url|] eqn:Himg.
      * unfold add_image. cbn [sections current_section].
        destruct cur as [cur|]; [|done]. by rewrite Hbody.
      * cbn [sections current_section].
        destruct cur as [cur|]; [|done]. by rewrite Hbody.
Qed.

Lemma image_of_nonempty (n : Node) (url : string) :
  image_of n = Some url → url ≠ "".
Proof.
  unfold image_of. destruct (decide (is_figure n)); [|done].
  destruct (Soup.find "img" (Soup.children n)) as [img|]; [|done].
  destruct (Soup.get img "src") as [u|]; [|done].
  destruct (decide (u = "")); [done|]. by intros [= <-].
Qed.

Lemma main_image_unset_spec (o : option string) :
  main_image_unset o = true ↔ o = None ∨ o = Some "".
Proof.
  unfold main_image_unset. destruct o as [s|]; cbn; [|naive_solver].
  destruct (decide (s = "")) as [->|Hne].
  - rewrite bool_decide_eq_true_2 by done. split; [by right | done].
  - rewrite bool_decide_eq_false_2 by done. cbn.
    split; [done | by intros [[=]|[=]]].
Qed.

Lemma main_image_advance (st : SegState) (n : Node) :
  main_image_wf st →
  main_image (advance st n) =
  match main_image st with
  | Some url => Some url
  | None => image_of n
  end.
Proof.
  unfold main_image_wf, advance. intros Hwf.
  destruct (decide (is_heading n)) as [Hh|Hh].
  { rewrite image_of_heading by done. cbn. by destruct (main_image st). }
  destruct (decide (is_paragraph n)) as [Hp|Hp].
  { rewrite image_of_paragraph by done. unfold add_paragraph.
    destruct (current_section st); cbn; by destruct (main_image st). }
  destruct (image_of n) as [url|]; [|by destruct (main_image st)].
  cbn. destruct (main_image st) as [old|] eqn:Hold; [|done].
  destruct (main_image_unset (Some old)) eqn:Hun; [|done].
  apply main_image_unset_spec in Hun as [[=]|[= ->]]. done.
Qed.

Lemma main_image_wf_advance (st : SegState) (n : Node) :
  main_image_wf st → main_image_wf (advance st n).
Proof.
  intros Hwf. unfold main_image_wf. rewrite main_image_advance by done.
  unfold main_image_wf in Hwf. destruct (main_image st); [done|].
  destruct (image_of n) eqn:E; [|done]. by eapply image_of_nonempty.
Qed.

Lemma main_image_walk (l : list Node) (st : SegState) :
  main_image_wf st →
  main_image (foldl advance st l) =
  match main_image st with
  | Some url => Some url
  | None => head (images_seen l)
  end.
Proof.
  revert st. induction l as [|n l IH]; intros st Hwf.
  { cbn. by destruct (main_image st). }
  cbn [foldl]. rewrite IH by by apply main_image_wf_advance.
  rewrite main_image_advance by done.
  destruct (main_image st); [done|]. unfold images_seen. cbn.
  by destruct (image_of n).
Qed.

(** The refinement: [segment] returns the outline of the walked nodes and
    the first image seen among them. *)
Lemma segment_outline (article : Node) :
  segment article =
  Ok (outline (walked article), head (images_seen (walked article))).
Proof.
  rewrite segment_walked, flush_walk, main_image_walk by done.
  done.
Qed.

End WalkOutline.

(** ** The segmenter: the claims *)

Section SegmenterClaims.
Import Segmenter Outline.

Lemma get_text_strip_single (nm : string) (a : gmap string string) (s : string) :
  Soup.get_text_strip (Tag nm a [Text s]) = Str.strip s.
Proof.
  unfold Soup.get_text_strip. cbn [Soup.children flat_map Soup.strings app].
  cbn [fmap list_fmap]. destruct (decide (Str.strip s = "")) as [E|E].
  - rewrite filter_cons_False by (intros H; by apply H). by rewrite E.
  - rewrite filter_cons_True by done. cbn [filter list_filter Str.join].
    by rewrite append_nil_r.
Qed.

Lemma trimmed_flat_text_single (nm : string) (a : gmap string string) (s : string) :
  trimmed_flat_text (Tag nm a [Text s]) = Str.strip s.
Proof.
  unfold trimmed_flat_text. cbn [Soup.children flat_map Soup.strings app Str.join].
  by rewrite append_nil_r.
Qed.

Lemma chunks_skip (pre post : list Node) :
  Forall (λ n, ¬ is_heading n) pre → chunks (pre ++ post) = chunks post.
Proof.
  induction 1 as [|n pre Hn _ IH]; [done|].
  cbn [app chunks]. by rewrite decide_False.
Qed.

Lemma outline_skip (pre post : list Node) :
  Forall (λ n, ¬ is_heading n) pre → outline (pre ++ post) = outline post.
Proof. intros H. unfold outline. by rewrite chunks_skip. Qed.

Lemma chunks_headings (l : list Node) :
  (chunks l).*1 = filter is_heading l.
Proof.
  induction l as [|n l IH]; [done|]. cbn [chunks].
  destruct (decide (is_heading n)).
  - rewrite filter_cons_True by done. cbn. by rewrite IH.
  - by rewrite filter_cons_False.
Qed.

Lemma filter_heading_nil (l : list Node) :
  Forall (λ n, ¬ is_heading n) l → filter is_heading l = [].
Proof.
  induction 1 as [|n l Hn _ IH]; [done|]. by rewrite filter_cons_False.
Qed.

Lemma outline_titles (l : list Node) :
  title <$> outline l = Soup.get_text_strip <$> filter is_heading l.
Proof.
  rewrite <- chunks_headings. unfold outline.
  rewrite <- !list_fmap_compose. done.
Qed.

Lemma paragraph_text_closed (body : list Node) :
  paragraph_text body = ""
  ∨ Str.last_char (paragraph_text body) = Some (Ascii.ascii_of_N 10).
Proof.
  apply join_newline_closed, Forall_fmap, Forall_forall.
  intros p _. cbn. by rewrite last_char_newline.
Qed.

Lemma first_some_None {A B} (f : A → option B) (l : list A) :
  Soup.first_some f l = None ↔ Forall (λ x, f x = None) l.
Proof.
  induction l as [|x l IH]; cbn; [by split; intros; constructor|].
  destruct (f x) eqn:E.
  - split; [done|]. intros H. apply Forall_cons in H as [H _]. congruence.
  - rewrite IH. split; [by constructor|]. by intros [_ H]%Forall_cons.
Qed.

(** A subtree without a tag called [nm] has no child of that name. *)
Lemma find_from_None_children (nm : string) (n : Node) :
  Soup.find_from nm n = None →
  Forall (λ c, Soup.find_from nm c = None ∧ Soup.name c ≠ Some nm)
    (Soup.children n).
Proof.
  destruct n as [s|s|nm' a ch]; cbn; [by constructor..|].
  destruct (decide (nm' = nm)); [done|].
  intros H%first_some_None. eapply Forall_impl; [exact H|].
  intros c Hc. split; [done|]. destruct c as [?|?|nm'' ? ?]; cbn; [done..|].
  intros [= ->]. cbn in Hc. by rewrite decide_True in Hc.
Qed.

Lemma no_heading_walked (article : Node) :
  Soup.find_from "h1" article = None →
  Forall (λ n, ¬ is_heading n) (walked article).
Proof.
  intros H%find_from_None_children. unfold walked.
  induction H as [|el els [Hel _] _ IH]; [constructor|].
  cbn [flat_map]. apply Forall_app. split; [|done].
  destruct (decide (Soup.name el = Some "div")); [|constructor].
  apply find_from_None_children in Hel.
  eapply Forall_impl; [exact Hel|]. by intros c [_ Hc].
Qed.

(** On a node with nested markup the two differ: [get_text(strip=True)]
    strips every string on its own. *)
Remark get_text_strip_nested :
  Soup.get_text_strip
    (Tag "h1" ∅ [Text "Hello "; Tag "b" ∅ [Text "World"]]) = "HelloWorld"
  ∧ trimmed_flat_text
      (Tag "h1" ∅ [Text "Hello "; Tag "b" ∅ [Text "World"]]) = "Hello World".
Proof. split; by vm_compute. Qed.

Ltac decide_kind :=
  repeat match goal with
  | |- context [decide ?P] =>
      first [ rewrite (decide_True (P := P)) by done
            | rewrite (decide_False (P := P)) by (by intros [=]) ]
  end.

Lemma image_of_figure (src : string) :
  src ≠ "" → image_of (Sample.figure src) = Some src.
Proof.
  intros Hsrc. unfold image_of, Sample.figure. cbn. decide_kind.
  unfold Soup.get. cbn. rewrite lookup_singleton_eq. by decide_kind.
Qed.

Lemma chunks_heading (x : Node) (l : list Node) :
  is_heading x → chunks (x :: l) = (x, until_heading l) :: chunks l.
Proof. intros H. cbn. by rewrite decide_True. Qed.

Lemma chunks_other (x : Node) (l : list Node) :
  ¬ is_heading x → chunks (x :: l) = chunks l.
Proof. intros H. cbn. by rewrite decide_False. Qed.

Lemma until_heading_stop (x : Node) (l : list Node) :
  is_heading x → until_heading (x :: l) = [].
Proof. intros H. cbn. by rewrite decide_True. Qed.

Lemma until_heading_go (x : Node) (l : list Node) :
  ¬ is_heading x → until_heading (x :: l) = x :: until_heading l.
Proof. intros H. cbn. by rewrite decide_False. Qed.

(** The example for any texts: titles and bodies are the stripped texts. *)
Lemma segment_article_of (t1 p1 src t2 p2 : string) :
  src ≠ "" →
  segment (Sample.article_of t1 p1 src t2 p2) =
  Ok ([ {| title := Str.strip t1; content := Str.strip p1 +:+ Str.newline;
           images := [src] |};
        {| title := Str.strip t2; content := Str.strip p2 +:+ Str.newline;
           images := [] |} ],
      Some src).
Proof.
  intros Hsrc. rewrite segment_outline.
  change (walked (Sample.article_of t1 p1 src t2 p2))
    with [Sample.heading t1; Sample.paragraph p1; Sample.figure src;
          Sample.heading t2; Sample.paragraph p2].
  pose proof (image_of_figure src Hsrc) as Himg.
  assert (Hh : ∀ t, is_heading (Sample.heading t)) by done.
  assert (Hp : ∀ t, ¬ is_heading (Sample.paragraph t)) by (by intros t [=]).
  assert (Hf : ¬ is_heading (Sample.figure src)) by (by intros [=]).
  unfold outline, images_seen. cbn [omap list_omap].
  rewrite Himg, !image_of_heading by done.
  rewrite chunks_heading, (chunks_other (Sample.paragraph p1)),
    (chunks_other (Sample.figure src)), chunks_heading,
    (chunks_other (Sample.paragraph p2)) by done.
  rewrite !until_heading_go, until_heading_stop by done.
  rewrite until_heading_go by done.
  cbn [chunks until_heading fmap list_fmap head].
  unfold section_of, paragraph_text, images_seen.
  cbn [fst snd omap list_omap]. rewrite Himg, !image_of_paragraph by done.
  rewrite !filter_cons_True, filter_cons_False by (done || by intros [=]).
  rewrite filter_cons_True by done.
  cbn [filter list_filter fmap list_fmap Str.join].
  unfold Sample.heading, Sample.paragraph.
  by rewrite !get_text_strip_single, !append_nil_r.
Qed.

(** C3. On the worked example (an article holding one wrapper [div] with
    heading "Intro", paragraph "Hello", a figure with an image "a.png",
    heading "Next", paragraph "World") the segmenter returns exactly the
    sections Intro/"Hello\n"/["a.png"] and Next/"World\n"/[] in that order,
    and the main image "a.png"; so does [parse_story] on a page made of that
    article.  Whatever the texts of the example, each title is the heading's
    text stripped and each body the paragraph's text stripped and closed by
    a newline; on the example these are the texts put together and trimmed,
    as on every node that holds a single text. *)
Theorem worked_example :
  segment Sample.article = Ok (Sample.expected_sections, Some "a.png")
  ∧ (∀ slug, parse_story (Sample.serving [Sample.article]) slug =
             Ok (parsed_story Sample.expected_sections (Some "a.png")))
  ∧ (∀ t1 p1 src t2 p2,
       src ≠ "" →
       segment (Sample.article_of t1 p1 src t2 p2) =
       Ok ([ {| title := Str.strip t1;
                content := Str.strip p1 +:+ Str.newline;
                images := [src] |};
             {| title := Str.strip t2;
                content := Str.strip p2 +:+ Str.newline;
                images := [] |} ],
           Some src))
  ∧ title <$> Sample.expected_sections =
      trimmed_flat_text <$> [Sample.heading_intro; Sample.heading_next]
  ∧ content <$> Sample.expected_sections =
      (λ p, trimmed_flat_text p +:+ Str.newline)
        <$> [Sample.paragraph_hello; Sample.paragraph_world]
  ∧ (∀ nm a s, Soup.get_text_strip (Tag nm a [Text s]) =
               trimmed_flat_text (Tag nm a [Text s])).
Proof.
  split; [by vm_compute|]. split; [intros slug; by vm_compute|].
  split; [apply segment_article_of|].
  split; [by vm_compute|]. split; [by vm_compute|].
  intros nm a s. by rewrite get_text_strip_single, trimmed_flat_text_single.
Qed.

Lemma worked_example_witness :
  segment (Sample.article_of "  Intro " "Hello " "a.png" " Next" " World")
  = Ok (Sample.expected_sections, Some "a.png").
Proof.
  destruct worked_example as (_ & _ & Hany & _).
  rewrite Hany by done. by vm_compute.
Defined.

(** C4. The main image [parse_story] records is the first image met along
    the walk, inside or outside a section; once the walk has recorded a main
    image no later node changes it; and figures that come before any heading
    leave the section list as it would be without them: their image goes to
    the main-image slot only. *)
Theorem main_image_first_seen (article : Node) :
  ∃ secs,
    segment article = Ok (secs, head (images_seen (walked article)))
    ∧ (∀ pre post st url,
         walked article = pre ++ post →
         for_each content_step init pre = Ok st →
         main_image st = Some url →
         head (images_seen (walked article)) = Some url)
    ∧ (∀ pre article',
         walked article = pre ++ walked article' →
         Forall (λ n, ¬ is_heading n) pre →
         ∃ img',
           segment article' = Ok (secs, img')
           ∧ head (images_seen (walked article)) =
               match head (images_seen pre) with
               | Some url => Some url
               | None => img'
               end).
Proof.
  exists (outline (walked article)). split; [apply segment_outline|]. split.
  - intros pre post st url Hw Hpre Hst.
    rewrite (for_each_foldl _ _ content_step_advance) in Hpre.
    injection Hpre as <-. rewrite main_image_walk in Hst by done.
    cbn in Hst. rewrite Hw. unfold images_seen in *.
    by rewrite omap_app, head_app, Hst.
  - intros pre article' Hw Hpre.
    exists (head (images_seen (walked article'))). split.
    + rewrite segment_outline, Hw. by rewrite outline_skip.
    + rewrite Hw. unfold images_seen. by rewrite omap_app, head_app.
Qed.

Lemma main_image_first_seen_witness :
  ∃ secs img',
    segment Sample.lead_figure_article = Ok (secs, Some "a.png")
    ∧ segment Sample.lead_figure_rest = Ok (secs, img').
Proof.
  destruct (main_image_first_seen Sample.lead_figure_article)
    as (secs & Hseg & Hkeep & Hlead).
  destruct (Hlead [Sample.figure_a] Sample.lead_figure_rest) as (img' & Hrest & _).
  - reflexivity.
  - repeat constructor. vm_compute. intros [=].
  - pose proof (Hkeep [Sample.figure_a] (walked Sample.lead_figure_rest)
                  {| sections := []; current_section := None;
                     main_image := Some "a.png" |} "a.png"
                  eq_refl eq_refl eq_refl) as Hfirst.
    exists secs, img'. split; [|exact Hrest].
    rewrite Hseg. by rewrite Hfirst.
Defined.

(** C5. The sections come out in the order of their headings, one per
    heading; a document without a heading gives no section, whatever
    paragraphs it has; and the nodes that come before the first heading
    (paragraphs among them) leave no trace in the sections. *)
Theorem sections_follow_headings (article : Node) :
  ∃ secs img,
    segment article = Ok (secs, img)
    ∧ title <$> secs =
        Soup.get_text_strip <$> filter is_heading (walked article)
    ∧ (filter is_heading (walked article) = [] → secs = [])
    ∧ (Soup.find_from "h1" article = None → secs = [])
    ∧ (∀ pre article',
         walked article = pre ++ walked article' →
         Forall (λ n, ¬ is_heading n) pre →
         ∃ img', segment article' = Ok (secs, img')).
Proof.
  exists (outline (walked article)), (head (images_seen (walked article))).
  split; [apply segment_outline|]. split; [apply outline_titles|].
  assert (Hnone : filter is_heading (walked article) = [] →
                  outline (walked article) = []).
  { intros H. apply (fmap_nil_inv title). by rewrite outline_titles, H. }
  split; [done|]. split.
  - intros H%no_heading_walked. by apply Hnone, filter_heading_nil.
  - intros pre article' Hw Hpre. eexists.
    rewrite segment_outline, Hw. by rewrite outline_skip.
Qed.

Lemma sections_follow_headings_witness :
  (∃ img, segment Sample.headless_article = Ok ([], img))
  ∧ (∃ secs img img',
       segment Sample.lead_paragraph_article = Ok (secs, img)
       ∧ segment Sample.lead_paragraph_rest = Ok (secs, img')).
Proof.
  split.
  - destruct (sections_follow_headings Sample.headless_article)
      as (secs & img & Hseg & _ & Hwalk & Hdoc & _).
    pose proof (Hwalk eq_refl) as Hempty. pose proof (Hdoc eq_refl) as Hempty'.
    exists img. by rewrite Hseg, Hempty.
  - destruct (sections_follow_headings Sample.lead_paragraph_article)
      as (secs & img & Hseg & _ & _ & _ & Hlead).
    destruct (Hlead [Sample.paragraph "Lead"] Sample.lead_paragraph_rest)
      as (img' & Hrest).
    + reflexivity.
    + repeat constructor. vm_compute. intros [=].
    + by exists secs, img, img'.
Defined.

Lemma Forall2_discharge {A B} (P : A → Prop) (R : A → B → Prop)
    (l : list A) (k : list B) :
  Forall P l → Forall2 (λ a b, P a → R a b) l k → Forall2 R l k.
Proof.
  intros HP HR. induction HR as [|a b l k Hab _ IH]; [constructor|].
  apply Forall_cons in HP as [Ha HP]. constructor; [by apply Hab|by apply IH].
Qed.

(** On a node with at most one text string below it, [get_text(strip=True)]
    is the text put together and trimmed. *)
Lemma get_text_strip_plain (n : Node) :
  plain n → Soup.get_text_strip n = trimmed_flat_text n.
Proof.
  unfold plain, Soup.get_text_strip, trimmed_flat_text.
  destruct (flat_map Soup.strings (Soup.children n)) as [|s [|s' l]];
    cbn [length]; [done| |lia].
  intros _. cbn [fmap list_fmap Str.join]. rewrite append_nil_r.
  destruct (decide (Str.strip s = "")) as [E|E].
  - rewrite filter_cons_False by (intros H; by apply H). by rewrite E.
  - rewrite filter_cons_True by done. cbn [filter list_filter Str.join].
    by rewrite append_nil_r.
Qed.

(** C10. In every section the segmenter returns, the body is the
    concatenation, over the paragraphs of that section (those between its
    heading and the next), of what [get_text(strip=True)] gives for the
    paragraph (every text string below it stripped on its own, the rest
    glued together), each followed by one newline; so the body is empty or
    ends with a newline.  In a section whose paragraphs hold at most one
    text string each, that is the concatenation of the trimmed texts of the
    paragraphs, each followed by one newline. *)
Theorem content_newline_closed (article : Node) :
  ∃ secs img,
    segment article = Ok (secs, img)
    ∧ Forall2
        (λ c s, content s =
                Str.join ((λ p, Soup.get_text_strip p +:+ Str.newline)
                            <$> filter is_paragraph c.2))
        (chunks (walked article)) secs
    ∧ Forall (λ s, content s = ""
                   ∨ Str.last_char (content s) = Some (Ascii.ascii_of_N 10))
        secs
    ∧ Forall2
        (λ c s, Forall plain (filter is_paragraph c.2) →
                content s =
                Str.join ((λ p, trimmed_flat_text p +:+ Str.newline)
                            <$> filter is_paragraph c.2))
        (chunks (walked article)) secs.
Proof.
  exists (outline (walked article)), (head (images_seen (walked article))).
  split; [apply segment_outline|]. unfold outline. split; [|split].
  - apply Forall2_fmap_r, Forall_Forall2_diag, Forall_forall. by intros c _.
  - apply Forall_fmap, Forall_forall. intros c _. apply paragraph_text_closed.
  - apply Forall2_fmap_r, Forall_Forall2_diag, Forall_forall.
    intros c _ Hplain. cbn [section_of content]. unfold paragraph_text.
    f_equal. apply Forall_fmap_ext_1.
    eapply Forall_impl; [exact Hplain|].
    intros p Hp. cbn beta. by rewrite get_text_strip_plain.
Qed.

Lemma content_newline_closed_witness :
  Forall (λ c, Forall plain (filter is_paragraph c.2))
    (chunks (walked Sample.article))
  ∧ Forall2
      (λ c s, content s =
              Str.join ((λ p, trimmed_flat_text p +:+ Str.newline)
                          <$> filter is_paragraph c.2))
      (chunks (walked Sample.article)) Sample.expected_sections.
Proof.
  assert (Hall : Forall (λ c, Forall plain (filter is_paragraph c.2))
                   (chunks (walked Sample.article)))
    by (vm_compute; repeat constructor).
  split; [exact Hall|].
  destruct (content_newline_closed Sample.article)
    as (secs & img & Hseg & _ & _ & Hplain).
  assert (Hrun : segment Sample.article
                 = Ok (Sample.expected_sections, Some "a.png"))
    by (by vm_compute).
  rewrite Hrun in Hseg. injection Hseg as <- <-.
  exact (Forall2_discharge _ _ _ _ Hall Hplain).
Defined.

(** A paragraph with nested markup under a heading: the strings are
    stripped one by one and glued. *)
Example nested_paragraph_content :
  segment nested_article
  = Ok ([ {| title := "Intro";
             content := "HelloWorldagain" +:+ Str.newline;
             images := [] |} ], None)
  ∧ trimmed_flat_text nested_paragraph = "Hello World again".
Proof. split; by vm_compute. Qed.

(** C10 as it is worded fails on a paragraph with nested markup: the body
    is not the concatenation of the trimmed texts of the paragraphs.  For
    the paragraph <p>Hello <b>World</b> again </p> the section holds
    "HelloWorldagain" and a newline, while the trimmed text of the
    paragraph is "Hello World again". *)
Lemma nested_paragraph_not_trimmed_text :
  ¬ (∀ (article : Node) (secs : list StorySection) (img : option string),
       segment article = Ok (secs, img) →
       Forall2
         (λ c s, content s =
                 Str.join ((λ p, trimmed_flat_text p +:+ Str.newline)
                             <$> filter is_paragraph c.2))
         (chunks (walked article)) secs).
Proof.
  intros Hclaim.
  pose proof (Hclaim nested_article
                [ {| title := "Intro";
                     content := "HelloWorldagain" +:+ Str.newline;
                     images := [] |} ] None ltac:(by vm_compute)) as Hbody.
  vm_compute in Hbody.
  apply Forall2_cons_1 in Hbody as [Hbody _]. discriminate Hbody.
Qed.

(** C6. [parse_story] raises its [ValueError] exactly when the page was
    fetched and holds no [article] container; on a fetched page without the
    container that is the error raised, and on one with the container the
    segmentation goes through and [parse_story] returns. *)
Theorem parse_story_not_found (w : World) (slug : PyVal) :
  ((∃ msg arg, parse_story w slug = Raise (ValueError msg arg))
   ↔ (∃ status soup,
        page w slug = Reply status (Some soup)
        ∧ raise_for_status status = Ok tt
        ∧ Soup.find "article" soup = None))
  ∧ (∀ status soup,
       page w slug = Reply status (Some soup) →
       raise_for_status status = Ok tt →
       (Soup.find "article" soup = None →
        parse_story w slug =
        Raise (ValueError "Could not find article content for slug: " slug))
       ∧ (∀ article,
            Soup.find "article" soup = Some article →
            ∃ secs img,
              segment article = Ok (secs, img)
              ∧ parse_story w slug = Ok (parsed_story secs img))).
Proof.
  assert (Hfetched : ∀ status soup,
    page w slug = Reply status (Some soup) →
    raise_for_status status = Ok tt →
    (Soup.find "article" soup = None →
     parse_story w slug =
     Raise (ValueError "Could not find article content for slug: " slug))
    ∧ (∀ article,
         Soup.find "article" soup = Some article →
         ∃ secs img,
           segment article = Ok (secs, img)
           ∧ parse_story w slug = Ok (parsed_story secs img))).
  { intros status soup Hpage Hstatus. unfold parse_story, parse_markup.
    rewrite Hpage, Hstatus. cbn [bind]. split.
    - by intros ->.
    - intros article ->. rewrite segment_outline. cbn [bind fst snd].
      by eexists _, _. }
  split; [|exact Hfetched]. split.
  - intros (msg & arg & Hraise). unfold parse_story in Hraise.
    destruct (page w slug) as [name|status markup] eqn:Hpage; [done|].
    unfold raise_for_status in *.
    destruct ((400 <=? status) && (status <? 600)) eqn:Hst; [done|].
    cbn [bind] in Hraise. destruct markup as [soup|]; [|done].
    cbn [bind] in Hraise. exists status, soup. rewrite Hst.
    split; [done|]. split; [done|]. unfold parse_markup in Hraise.
    destruct (Soup.find "article" soup) as [article|]; [|done].
    by rewrite segment_outline in Hraise.
  - intros (status & soup & Hpage & Hstatus & Hnone).
    destruct (Hfetched status soup Hpage Hstatus) as [Hraise _].
    eexists _, _. by apply Hraise.
Qed.

Lemma parse_story_not_found_witness :
  parse_story (Sample.serving [Tag "div" ∅ [Text "no container"]])
    (PyStr "lost") =
    Raise (ValueError "Could not find article content for slug: "
             (PyStr "lost"))
  ∧ ∃ secs img,
      parse_story (Sample.serving [Tag "body" ∅ [Sample.article]])
        (PyStr "found") = Ok (parsed_story secs img).
Proof.
  split.
  - destruct (parse_story_not_found
                (Sample.serving [Tag "div" ∅ [Text "no container"]])
                (PyStr "lost")) as [_ Hfetched].
    destruct (Hfetched 200 [Tag "div" ∅ [Text "no container"]]
                eq_refl eq_refl) as [Hraise _].
    exact (Hraise eq_refl).
  - destruct (parse_story_not_found
                (Sample.serving [Tag "body" ∅ [Sample.article]])
                (PyStr "found")) as [_ Hfetched].
    destruct (Hfetched 200 [Tag "body" ∅ [Sample.article]]
                eq_refl eq_refl) as [_ Hok].
    destruct (Hok Sample.article eq_refl) as (secs & img & _ & Hparse).
    by exists secs, img.
Defined.

End SegmenterClaims.

(** ** One batch: per-item failures stay inside *)

Section Batch.
Context (w : World).

Lemma try_story_foldl (items : list PyVal) (batch : list PyVal)
    (printed : list exn) :
  foldl (try_story w) (batch, printed) items =
  (batch ++ survivors w items, printed ++ failures w items).
Proof.
  revert batch printed.
  induction items as [|story items IH]; intros batch printed.
  { cbn. by rewrite !app_nil_r. }
  cbn [foldl]. unfold try_story at 2. unfold survivors, failures, failure_of.
  cbn [omap list_omap fst snd].
  destruct (process_story w story) as [full|e]; cbn [result_to_option].
  - rewrite IH. by rewrite <- app_assoc.
  - rewrite IH. by rewrite <- app_assoc.
Qed.

Lemma process_batch_sequential (max_workers : Z) (n : nat)
    (stories_response items_value : PyVal) (items : list PyVal) :
  Py.getitem stories_response "items" = Ok items_value →
  Py.iter items_value = Ok items →
  process_batch w false max_workers n stories_response =
  Ok (survivors w items, failures w items).
Proof.
  intros Hitems Hiter. unfold process_batch. rewrite Hitems. cbn [bind].
  rewrite Hiter. cbn [bind]. by rewrite try_story_foldl.
Qed.

Lemma process_batch_parallel (max_workers : Z) (n : nat)
    (stories_response items_value : PyVal) (items : list PyVal) :
  0 < max_workers →
  Py.getitem stories_response "items" = Ok items_value →
  Py.iter items_value = Ok items →
  process_batch w true max_workers n stories_response =
  Ok (survivors w (completion w n items), failures w (completion w n items)).
Proof.
  intros Hpool Hitems Hiter. unfold process_batch.
  rewrite (proj2 (Z.leb_gt _ _)) by done.
  rewrite Hitems. cbn [bind]. rewrite Hiter. cbn [bind].
  by rewrite try_story_foldl.
Qed.

(** Whatever the mode, the batch is made of the survivors, up to the order
    of completion. *)
Lemma process_batch_survivors (parallel : bool) (max_workers : Z) (n : nat)
    (stories_response items_value : PyVal) (items : list PyVal) :
  pool_ok w parallel max_workers →
  Py.getitem stories_response "items" = Ok items_value →
  Py.iter items_value = Ok items →
  ∃ batch printed,
    process_batch w parallel max_workers n stories_response = Ok (batch, printed)
    ∧ batch ≡ₚ survivors w items
    ∧ printed ≡ₚ failures w items.
Proof.
  intros Hpool Hitems Hiter. destruct parallel.
  - destruct (Hpool eq_refl) as [Hwidth Hfair].
    rewrite (process_batch_parallel _ _ _ items_value items) by auto.
    eexists _, _. split; [done|]. unfold survivors, failures.
    by rewrite !(Hfair n items).
  - rewrite (process_batch_sequential _ _ _ items_value items) by auto.
    by eexists _, _.
Qed.

Lemma survivors_all (items : list PyVal) :
  Forall (λ story, is_ok (process_story w story) = true) items →
  length (survivors w items) = length items ∧ failures w items = [].
Proof.
  induction 1 as [|story items Hok _ [IHs IHf]]; [done|].
  unfold survivors, failures, failure_of in *. cbn [omap list_omap].
  destruct (process_story w story); [|done]. cbn. by rewrite IHs, IHf.
Qed.

Lemma survivors_one_failure (pre post : list PyVal) (x : PyVal) (e : exn) :
  process_story w x = Raise e →
  Forall (λ story, is_ok (process_story w story) = true) (pre ++ post) →
  survivors w (pre ++ x :: post) = survivors w (pre ++ post)
  ∧ length (survivors w (pre ++ post)) = (length (pre ++ x :: post) - 1)%nat
  ∧ failures w (pre ++ x :: post) = [e].
Proof.
  intros Hx Hall. pose proof Hall as [Hpre Hpost]%Forall_app.
  destruct (survivors_all _ Hall) as [Hlen _].
  destruct (survivors_all _ Hpre) as [_ Hfpre].
  destruct (survivors_all _ Hpost) as [_ Hfpost].
  unfold survivors, failures in *. rewrite !omap_app. cbn [omap list_omap].
  unfold failure_of at 2. rewrite Hx. cbn [result_to_option].
  rewrite Hfpre, Hfpost. split; [done|]. split; [|done].
  rewrite <- omap_app, Hlen. rewrite !length_app. cbn [length]. lia.
Qed.

End Batch.

(** ** The pagination loop *)

Section Loop.
Context (w : World) (count : Z) (parallel : bool) (max_workers : Z).

#[local] Abbreviation iteration' := (iteration w count parallel max_workers).
#[local] Abbreviation fetch_loop' := (fetch_loop w count parallel max_workers).

(** A turn that stops does so by returning or raising. *)
Lemma iteration_stop (send : Transport) (n : nat) (cursor : PyVal)
    (all_stories : list PyVal) (o : Outcome) (out : list exn) :
  iteration' send n cursor all_stories = (Stop o, out) → o ≠ Awaiting.
Proof.
  unfold iteration. intros H Ho. subst o.
  destruct (fetch_stories _ _ _ _ _) as [resp|]; [|done].
  destruct (process_batch _ _ _ _ _) as [[batch printed]|]; [|done].
  destruct (budget_reached _ _); [done|].
  destruct (Py.get _ _) as [c|]; [|done]. by destruct (Py.truthy c).
Qed.

(** A failing listing request ends the run with its exception. *)
Lemma iteration_listing_raises (send : Transport) (n : nat) (cursor : PyVal)
    (all_stories : list PyVal) (e : exn) :
  listing send cursor = Raise e →
  iteration' send n cursor all_stories = (Stop (Raised e), []).
Proof. unfold listing, iteration. by intros ->. Qed.

(** A turn on a decoded response whose batch went through. *)
Lemma iteration_batch (send : Transport) (n : nat) (cursor : PyVal)
    (all_stories : list PyVal) (stories_response : PyVal)
    (batch : list PyVal) (out : list exn) :
  listing send cursor = Ok stories_response →
  process_batch w parallel max_workers n stories_response = Ok (batch, out) →
  iteration' send n cursor all_stories =
  (if budget_reached count (all_stories ++ batch)
   then Stop (Returned BudgetReached
                (Py.slice_to (all_stories ++ batch) count))
   else match Py.get stories_response "nextCursor" with
        | Raise e => Stop (Raised e)
        | Ok next =>
            if Py.truthy next then Continue next (all_stories ++ batch)
            else Stop (Returned ListingExhausted (all_stories ++ batch))
        end,
   out).
Proof.
  unfold listing, iteration. intros -> ->.
  destruct (budget_reached _ _); [done|].
  destruct (Py.get _ _) as [next|]; [|done]. by destruct (Py.truthy next).
Qed.

Lemma fetch_loop_stop (send : Transport) (rest : list Transport) (n : nat)
    (cursor : PyVal) (all_stories : list PyVal) (printed out : list exn)
    (o : Outcome) :
  iteration' send n cursor all_stories = (Stop o, out) →
  fetch_loop' (send :: rest) n cursor all_stories printed = (o, printed ++ out).
Proof. cbn [fetch_loop]. by intros ->. Qed.

Lemma fetch_loop_continue (send : Transport) (rest : list Transport) (n : nat)
    (cursor next : PyVal) (all_stories all_stories' : list PyVal)
    (printed out : list exn) :
  iteration' send n cursor all_stories = (Continue next all_stories', out) →
  fetch_loop' (send :: rest) n cursor all_stories printed =
  fetch_loop' rest (S n) next all_stories' (printed ++ out).
Proof. cbn [fetch_loop]. by intros ->. Qed.

(** A page without a next cursor never lets the loop go on. *)
Lemma iteration_last_page (send : Transport) (n : nat) (cursor : PyVal)
    (all_stories : list PyVal) :
  last_page send →
  ∃ o out, iteration' send n cursor all_stories = (Stop o, out).
Proof.
  intros Hlast. unfold iteration.
  destruct (fetch_stories _ _ _ _ _) as [resp|] eqn:Hresp; [|by eexists _, _].
  destruct (process_batch _ _ _ _ _) as [[batch out]|]; [|by eexists _, _].
  destruct (budget_reached _ _); [by eexists _, _|].
  destruct (Py.get _ _) as [next|] eqn:Hnext; [|by eexists _, _].
  rewrite (Hlast cursor resp next Hresp Hnext). by eexists _, _.
Qed.

Lemma fetch_loop_last_page (pre : list Transport) (send : Transport)
    (rest : list Transport) (n : nat) (cursor : PyVal)
    (all_stories : list PyVal) (printed : list exn) :
  last_page send →
  fetch_loop' (pre ++ send :: rest) n cursor all_stories printed =
  fetch_loop' (pre ++ [send]) n cursor all_stories printed
  ∧ (fetch_loop' (pre ++ [send]) n cursor all_stories printed).1 ≠ Awaiting.
Proof.
  intros Hlast. revert n cursor all_stories printed.
  induction pre as [|s pre IH]; intros n cursor all_stories printed.
  - destruct (iteration_last_page send n cursor all_stories Hlast)
      as (o & out & Hit).
    cbn [app]. rewrite !(fetch_loop_stop _ _ _ _ _ _ _ _ Hit).
    split; [done|]. cbn. by eapply iteration_stop.
  - cbn [app fetch_loop].
    destruct (iteration' s n cursor all_stories) as [[next all'|o] out] eqn:Hit.
    + apply IH.
    + split; [done|]. cbn. by eapply iteration_stop.
Qed.

(** The two exits and the budget. *)
Lemma fetch_loop_budget (script : list Transport) (n : nat) (cursor : PyVal)
    (all_stories : list PyVal) (printed printed' : list exn)
    (site : ReturnSite) (stories : list PyVal) :
  0 ≤ count →
  fetch_loop' script n cursor all_stories printed =
    (Returned site stories, printed') →
  match site with
  | BudgetReached => Z.of_nat (length stories) = count
  | ListingExhausted => Z.of_nat (length stories) < count
  end.
Proof.
  intros Hcount. revert n cursor all_stories printed.
  induction script as [|send script IH]; intros n cursor all_stories printed;
    [done|].
  cbn [fetch_loop]. unfold iteration.
  destruct (fetch_stories _ _ _ _ _) as [resp|]; [|done].
  destruct (process_batch _ _ _ _ _) as [[batch out]|]; [|done].
  destruct (budget_reached _ _) eqn:Hbudget.
  - intros [= <- <- _]. unfold budget_reached in Hbudget.
    apply andb_true_iff in Hbudget as [_ Hle%Z.leb_le].
    unfold Py.slice_to. rewrite (proj2 (Z.leb_le 0 count)) by done.
    rewrite length_take. lia.
  - destruct (Py.get _ _) as [next|]; [|done].
    destruct (Py.truthy next); [apply IH|].
    intros [= <- <- _]. unfold budget_reached in Hbudget.
    apply andb_false_iff in Hbudget as [Hm|Hgt%Z.leb_gt]; [|lia].
    apply negb_false_iff, Z.eqb_eq in Hm. lia.
Qed.

(** Pages that keep coming, with all their items enriched, fill the budget. *)
Lemma fetch_loop_full_pages (script : list Transport) (sizes : list nat) :
  0 ≤ count →
  pool_ok w parallel max_workers →
  Forall2 (full_page w) script sizes →
  ∀ n cursor all_stories printed,
    script ≠ [] →
    count ≤ Z.of_nat (length all_stories + sum_list sizes) →
    ∃ stories,
      fetch_loop' script n cursor all_stories printed =
        (Returned BudgetReached stories, printed)
      ∧ Z.of_nat (length stories) = count.
Proof.
  intros Hcount Hpool. induction 1 as [|send k script sizes Hpage Htail IH];
    intros n cursor all_stories printed Hne Hsupply; [done|].
  destruct (Hpage cursor)
    as (resp & items_value & items & next & Hresp & Hitems & Hiter & Hlen
        & Hok & Hnext & Htruthy).
  destruct (process_batch_survivors w parallel max_workers n resp items_value
              items Hpool Hitems Hiter)
    as (batch & out & Hbatch & Hperm & Hout).
  destruct (survivors_all w items Hok) as [Hsurv Hfail].
  rewrite Hfail in Hout. apply Permutation_nil_r in Hout. subst out.
  apply Permutation_length in Hperm. rewrite Hsurv, Hlen in Hperm.
  pose proof (iteration_batch send n cursor all_stories resp batch []
                Hresp Hbatch) as Hit.
  destruct (budget_reached count (all_stories ++ batch)) eqn:Hbudget.
  - rewrite (fetch_loop_stop _ _ _ _ _ _ _ _ Hit), app_nil_r.
    eexists. split; [done|]. unfold budget_reached in Hbudget.
    apply andb_true_iff in Hbudget as [_ Hle%Z.leb_le].
    unfold Py.slice_to. rewrite (proj2 (Z.leb_le 0 count)) by done.
    rewrite length_take. lia.
  - rewrite Hnext, Htruthy in Hit.
    rewrite (fetch_loop_continue _ _ _ _ _ _ _ _ _ Hit), app_nil_r.
    unfold budget_reached in Hbudget.
    apply andb_false_iff in Hbudget as [Hm|Hgt%Z.leb_gt].
    { apply negb_false_iff, Z.eqb_eq in Hm. lia. }
    rewrite length_app, Hperm in Hgt. cbn [sum_list sum_list_with] in Hsupply.
    change (id k) with k in Hsupply. apply IH.
    + intros ->. apply Forall2_nil_inv_l in Htail. subst sizes.
      cbn [sum_list sum_list_with] in Hsupply. lia.
    + rewrite length_app, Hperm. lia.
Qed.

End Loop.

(** ** The pipeline: the claims *)

Lemma getitem_dict (v : PyVal) (key : string) (x : PyVal) :
  Py.getitem v key = Ok x → ∃ m, v = PyDict m ∧ m !! key = Some x.
Proof.
  destruct v as [| | | | |m]; try done. cbn.
  destruct (m !! key) as [y|] eqn:E; [|done]. intros [= <-]. by exists m.
Qed.

(** [fetch_stories] returns exactly on the enveloped replies; on any other
    it raises. *)
Lemma listing_enveloped (send : Transport) (cursor payload : PyVal) :
  listing send cursor = Ok payload
  ↔ enveloped
      (send (create_request_payload "en" batch_size ["Bachelor"] cursor))
      payload.
Proof.
  unfold listing, fetch_stories, enveloped.
  destruct (send _) as [|status body].
  { split; [done|]. by intros (? & ? & ? & ? & ? & [=] & _). }
  split.
  - destruct (raise_for_status status) as [[]|] eqn:Hst; [|done].
    cbn [bind]. destruct body as [data|]; [|done]. cbn [bind].
    destruct (Py.getitem data "0") as [d0|] eqn:H0; [|done]. cbn [bind].
    destruct (Py.getitem d0 "result") as [d1|] eqn:H1; [|done]. cbn [bind].
    destruct (Py.getitem d1 "data") as [d2|] eqn:H2; [|done].
    cbn [bind]. intros H3.
    apply getitem_dict in H3 as (m3 & -> & H3).
    apply getitem_dict in H2 as (m2 & -> & H2).
    apply getitem_dict in H1 as (m1 & -> & H1).
    apply getitem_dict in H0 as (m0 & -> & H0).
    by exists status, m0, m1, m2, m3.
  - intros (st & m0 & m1 & m2 & m3 & [= <- ->] & Hst & H0 & H1 & H2 & H3).
    rewrite Hst. cbn. rewrite H0. cbn. rewrite H1. cbn. rewrite H2. cbn.
    by rewrite H3.
Qed.

Lemma listing_not_enveloped (send : Transport) (cursor : PyVal) :
  (∀ payload,
     ¬ enveloped
         (send (create_request_payload "en" batch_size ["Bachelor"] cursor))
         payload) →
  ∃ e, listing send cursor = Raise e.
Proof.
  intros Hbad. destruct (listing send cursor) as [payload|e] eqn:Hl.
  - by apply listing_enveloped, Hbad in Hl.
  - by exists e.
Qed.

Lemma patchy_fair : fair Sample.patchy.
Proof. intros n items. cbn. apply reverse_Permutation. Qed.

(** C1. With a working pool (in parallel mode: a positive width, and every
    future completing once), the
    exception of an item whose enrichment fails is caught and printed and
    the item is left out: the batch holds the merged records of the other
    items, so a batch with exactly one failing item among M yields M-1
    records and prints that one exception, and the turn of the loop does not
    raise.  A listing request that raises ends the whole run at once with
    that exception, whatever had been accumulated; and it raises on every
    reply that is not a decodable envelope with a status outside 400-599. *)
Theorem error_asymmetry (w : World) (count : Z) (parallel : bool)
    (max_workers : Z) :
  pool_ok w parallel max_workers →
  (∀ n stories_response items_value items,
     Py.getitem stories_response "items" = Ok items_value →
     Py.iter items_value = Ok items →
     ∃ batch printed,
       process_batch w parallel max_workers n stories_response
         = Ok (batch, printed)
       ∧ batch ≡ₚ survivors w items
       ∧ printed ≡ₚ failures w items)
  ∧ (∀ send n cursor all_stories stories_response items_value pre x post e,
       listing send cursor = Ok stories_response →
       Py.getitem stories_response "items" = Ok items_value →
       Py.iter items_value = Ok (pre ++ x :: post) →
       process_story w x = Raise e →
       Forall (λ story, is_ok (process_story w story) = true) (pre ++ post) →
       ∃ batch step,
         process_batch w parallel max_workers n stories_response
           = Ok (batch, [e])
         ∧ length batch = (length (pre ++ x :: post) - 1)%nat
         ∧ batch ≡ₚ survivors w (pre ++ post)
         ∧ iteration w count parallel max_workers send n cursor all_stories
             = (step, [e])
         ∧ ∀ e', step ≠ Stop (Raised e'))
  ∧ (∀ send rest n cursor all_stories printed e,
       listing send cursor = Raise e →
       fetch_loop w count parallel max_workers (send :: rest) n cursor
         all_stories printed = (Raised e, printed))
  ∧ (∀ send rest n cursor all_stories printed,
       (∀ payload,
          ¬ enveloped
              (send (create_request_payload "en" batch_size ["Bachelor"]
                       cursor))
              payload) →
       ∃ e,
         listing send cursor = Raise e
         ∧ fetch_loop w count parallel max_workers (send :: rest) n cursor
             all_stories printed = (Raised e, printed)).
Proof.
  intros Hpool.
  assert (Hlisting : ∀ send rest n cursor all_stories printed e,
    listing send cursor = Raise e →
    fetch_loop w count parallel max_workers (send :: rest) n cursor
      all_stories printed = (Raised e, printed)).
  { intros send rest n cursor all_stories printed e Hraise.
    rewrite (fetch_loop_stop w count parallel max_workers send rest n cursor
               all_stories printed [] (Raised e)).
    + by rewrite app_nil_r.
    + by apply iteration_listing_raises. }
  split; [|split; [|split; [exact Hlisting|]]]; cycle 2.
  { intros send rest n cursor all_stories printed Hbad.
    destruct (listing_not_enveloped send cursor Hbad) as [e He].
    exists e. split; [done|]. by apply Hlisting. }
  - intros n resp items_value items Hitems Hiter.
    by eapply process_batch_survivors.
  - intros send n cursor all_stories resp items_value pre x post e
      Hresp Hitems Hiter Hx Hothers.
    destruct (process_batch_survivors w parallel max_workers n resp
                items_value _ Hpool Hitems Hiter)
      as (batch & out & Hbatch & Hperm & Hout).
    destruct (survivors_one_failure w pre post x e Hx Hothers)
      as (Hsurv & Hlen & Hfail).
    rewrite Hfail in Hout. apply Permutation_singleton_r in Hout. subst out.
    rewrite Hsurv in Hperm.
    pose proof (iteration_batch w count parallel max_workers send n cursor
                  all_stories resp batch [e] Hresp Hbatch) as Hit.
    eexists batch, _. split; [done|]. split.
    { by rewrite (Permutation_length Hperm). }
    split; [done|]. split; [exact Hit|].
    intros e'. destruct (budget_reached _ _); [done|].
    apply getitem_dict in Hitems as (m & -> & _). cbn [Py.get].
    by destruct (Py.truthy _).
Qed.

Lemma error_asymmetry_witness :
  (∃ batch,
     process_batch Sample.patchy true 3 0
       (PyDict {[ "items" := PyList [Sample.story "one";
                                     Sample.story "gone";
                                     Sample.story "three"] ]})
       = Ok (batch, [HTTPError 404])
     ∧ length batch = 2%nat)
  ∧ fetch_full_stories Sample.patchy 20 true 3
      [Sample.page_then [Sample.story "one"] Sample.cursor1;
       Sample.failing_listing;
       Sample.page_end [Sample.story "three"]]
    = (Raised (HTTPError 503), []).
Proof.
  destruct (error_asymmetry Sample.patchy 20 true 3
              (λ _, conj eq_refl patchy_fair)) as (_ & Hone & Hlisting & _).
  split.
  - destruct (Hone (Sample.page_end [Sample.story "one";
                                      Sample.story "gone";
                                      Sample.story "three"])
                0%nat PyNone []
                (PyDict {[ "items" := PyList [Sample.story "one";
                                              Sample.story "gone";
                                              Sample.story "three"] ]})
                (PyList [Sample.story "one"; Sample.story "gone";
                         Sample.story "three"])
                [Sample.story "one"] (Sample.story "gone")
                [Sample.story "three"] (HTTPError 404))
      as (batch & step & Hbatch & Hlen & _).
    + vm_compute. reflexivity.
    + vm_compute. reflexivity.
    + reflexivity.
    + vm_compute. reflexivity.
    + repeat constructor.
    + exists batch. by split.
  - unfold fetch_full_stories.
    rewrite (fetch_loop_continue Sample.patchy 20 true 3 _ _ 0 PyNone
               Sample.cursor1 [] (survivors Sample.patchy [Sample.story "one"])
               [] []) by (vm_compute; reflexivity).
    apply Hlisting. vm_compute. reflexivity.
Defined.

Lemma survivors_in_order (w : World) (items : list PyVal) :
  Forall2 (λ story record, process_story w story = Ok record)
    (filter (λ story, is_ok (process_story w story) = true) items)
    (survivors w items).
Proof.
  induction items as [|story items IH]; [constructor|].
  unfold survivors. cbn [omap list_omap].
  destruct (process_story w story) as [record|e] eqn:Hstory.
  - rewrite filter_cons_True by by rewrite Hstory.
    cbn [result_to_option]. by constructor.
  - rewrite filter_cons_False by by rewrite Hstory.
    done.
Qed.

(** C8. In sequential mode the batch is made of the merged records of the
    items that enrich, in the order of the listing: the kept summaries are
    a subsequence of the listed ones, each merged record stands at the place
    of its summary, and the exceptions of the others are printed in listing
    order. *)
Theorem sequential_order (w : World) (max_workers : Z) (n : nat)
    (stories_response items_value : PyVal) (items : list PyVal) :
  Py.getitem stories_response "items" = Ok items_value →
  Py.iter items_value = Ok items →
  ∃ batch kept,
    process_batch w false max_workers n stories_response
      = Ok (batch, failures w items)
    ∧ kept = filter (λ story, is_ok (process_story w story) = true) items
    ∧ kept `sublist_of` items
    ∧ Forall2 (λ story record, process_story w story = Ok record) kept batch.
Proof.
  intros Hitems Hiter. eexists _, _.
  split; [by eapply process_batch_sequential|]. split; [done|].
  split; [apply sublist_filter | apply survivors_in_order].
Qed.

Lemma sequential_order_witness :
  ∃ first third,
    process_batch Sample.patchy false 5 0
      (PyDict {[ "items" := PyList [Sample.story "one";
                                    Sample.story "gone";
                                    Sample.story "three"] ]})
      = Ok ([first; third], [HTTPError 404])
    ∧ process_story Sample.patchy (Sample.story "one") = Ok first
    ∧ process_story Sample.patchy (Sample.story "three") = Ok third.
Proof.
  destruct (sequential_order Sample.patchy 5 0
              (PyDict {[ "items" := PyList [Sample.story "one";
                                            Sample.story "gone";
                                            Sample.story "three"] ]})
              (PyList [Sample.story "one"; Sample.story "gone";
                       Sample.story "three"])
              [Sample.story "one"; Sample.story "gone";
               Sample.story "three"])
    as (batch & kept & Hbatch & Hkept & _ & Hrecords).
  - vm_compute. reflexivity.
  - reflexivity.
  - assert (kept = [Sample.story "one"; Sample.story "three"]) as ->.
    { rewrite Hkept. vm_compute. reflexivity. }
    apply Forall2_cons_inv_l in Hrecords as (first & batch' & H1 & Hrest & ->).
    apply Forall2_cons_inv_l in Hrest as (third & batch'' & H3 & Hnil & ->).
    apply Forall2_nil_inv_l in Hnil as ->.
    exists first, third. split; [|by split].
    rewrite Hbatch. vm_compute. reflexivity.
Defined.

Lemma parse_story_shape (w : World) (slug v : PyVal) :
  parse_story w slug = Ok v →
  ∃ secs img, v = parsed_story secs img.
Proof.
  unfold parse_story, parse_markup.
  destruct (page w slug) as [|status [soup|]]; [done| |];
    (destruct (raise_for_status status); [|done]); cbn [bind]; [|done].
  destruct (Soup.find "article" soup) as [article|]; [|done].
  rewrite segment_outline. cbn [bind]. intros [= <-]. by eexists _, _.
Qed.

Lemma parsed_story_getitem (secs : list StorySection) (img : option string)
    (key : string) :
  Py.getitem (parsed_story secs img) key =
  if decide (key = "sections") then Ok (PyList (section_value <$> secs))
  else if decide (key = "mainImage") then Ok (Py.of_option img)
  else Raise (KeyError key).
Proof.
  unfold parsed_story, Py.getitem.
  destruct (decide (key = "sections")) as [->|Hs]; [by simplify_map_eq|].
  destruct (decide (key = "mainImage")) as [->|Hm]; [by simplify_map_eq|].
  by simplify_map_eq.
Qed.

(** C9. What [parse_story] returns has the two entries "sections" and
    "mainImage" and nothing else (asking it for "title", "author", "org" or
    "createdAt" raises [KeyError]); a merged record is the summary with
    those two entries set from the parsed page, so each of its other
    entries is the summary's own. *)
Theorem metadata_from_listing (w : World) (story record : PyVal) :
  process_story w story = Ok record →
  ∃ m slug secs img,
    story = PyDict m
    ∧ m !! "slug" = Some slug
    ∧ parse_story w slug = Ok (parsed_story secs img)
    ∧ (∀ key, key ≠ "sections" → key ≠ "mainImage" →
              Py.getitem (parsed_story secs img) key = Raise (KeyError key))
    ∧ record =
        PyDict (<["mainImage" := Py.of_option img]>
                  (<["sections" := PyList (section_value <$> secs)]> m))
    ∧ (∀ key, key ≠ "sections" → key ≠ "mainImage" →
              Py.getitem record key = Py.getitem story key).
Proof.
  unfold process_story. intros Hrecord.
  destruct (Py.getitem story "slug") as [slug|] eqn:Hslug; [|done].
  apply getitem_dict in Hslug as (m & -> & Hslug). cbn [bind] in Hrecord.
  destruct (parse_story w slug) as [parsed|] eqn:Hparsed; [|done].
  destruct (parse_story_shape w slug parsed Hparsed) as (secs & img & ->).
  cbn [bind] in Hrecord. rewrite !parsed_story_getitem in Hrecord.
  cbn in Hrecord. injection Hrecord as <-.
  exists m, slug, secs, img. split; [done|]. split; [done|].
  split; [done|]. split.
  { intros key Hs Hm. rewrite parsed_story_getitem.
    by rewrite !decide_False. }
  split; [done|]. intros key Hs Hm. cbn [Py.getitem].
  by rewrite !lookup_insert_ne.
Qed.

Lemma metadata_from_listing_witness :
  process_story Sample.patchy (Sample.story "one") = Ok (Sample.merged "one")
  ∧ Py.getitem (Sample.merged "one") "title" = Ok (PyStr "A story")
  ∧ Py.getitem (Sample.merged "one") "slug" = Ok (PyStr "one").
Proof.
  assert (Hrecord : process_story Sample.patchy (Sample.story "one")
                    = Ok (Sample.merged "one")) by (vm_compute; reflexivity).
  destruct (metadata_from_listing Sample.patchy (Sample.story "one")
              (Sample.merged "one") Hrecord)
    as (m & slug & secs & img & _ & _ & _ & _ & _ & Hkeep).
  split; [exact Hrecord|]. split.
  - rewrite Hkeep by done. vm_compute. reflexivity.
  - rewrite Hkeep by done. vm_compute. reflexivity.
Defined.

(** C7, as the code has it.  At a response without a next cursor the loop
    stops and returns: the accumulated records, or, when a budget was given
    and the accumulator has reached it, the accumulated records cut to the
    budget.  So a script that holds a reply without a next cursor is never
    read past that reply, and the run on it ends by returning or raising,
    whatever the budget and the number of records accumulated. *)
Theorem pagination_stops (w : World) (count : Z) (parallel : bool)
    (max_workers : Z) :
  (∀ send rest n cursor all_stories printed stories_response batch out next,
     listing send cursor = Ok stories_response →
     process_batch w parallel max_workers n stories_response
       = Ok (batch, out) →
     Py.get stories_response "nextCursor" = Ok next →
     Py.truthy next = false →
     fetch_loop w count parallel max_workers (send :: rest) n cursor
       all_stories printed =
     (if budget_reached count (all_stories ++ batch)
      then Returned BudgetReached (Py.slice_to (all_stories ++ batch) count)
      else Returned ListingExhausted (all_stories ++ batch),
      printed ++ out))
  ∧ (∀ pre send rest,
       last_page send →
       fetch_full_stories w count parallel max_workers (pre ++ send :: rest)
       = fetch_full_stories w count parallel max_workers (pre ++ [send])
       ∧ (fetch_full_stories w count parallel max_workers (pre ++ [send])).1
         ≠ Awaiting).
Proof.
  split.
  - intros send rest n cursor all_stories printed resp batch out next
      Hresp Hbatch Hnext Hfalsy.
    pose proof (iteration_batch w count parallel max_workers send n cursor
                  all_stories resp batch out Hresp Hbatch) as Hit.
    rewrite Hnext, Hfalsy in Hit.
    destruct (budget_reached count (all_stories ++ batch));
      by rewrite (fetch_loop_stop _ _ _ _ _ _ _ _ _ _ _ _ Hit).
  - intros pre send rest Hlast. by apply fetch_loop_last_page.
Qed.

Lemma page_end_last (items : list PyVal) : last_page (Sample.page_end items).
Proof.
  intros cursor resp next Hresp Hnext.
  assert (resp = PyDict {[ "items" := PyList items ]}) as ->.
  { unfold listing, fetch_stories, Sample.page_end in Hresp.
    cbn in Hresp. by injection Hresp as <-. }
  cbn in Hnext. by injection Hnext as <-.
Qed.

Lemma pagination_stops_witness :
  fetch_full_stories Sample.patchy (-1) false 5
    [Sample.page_then [Sample.story "one"; Sample.story "two"]
       Sample.cursor1;
     Sample.page_end [Sample.story "three"];
     Sample.failing_listing]
  = (Returned ListingExhausted
       [Sample.merged "one"; Sample.merged "two"; Sample.merged "three"],
     []).
Proof.
  destruct (pagination_stops Sample.patchy (-1) false 5) as [Hstop Hscript].
  destruct (Hscript
              [Sample.page_then [Sample.story "one"; Sample.story "two"]
                 Sample.cursor1]
              (Sample.page_end [Sample.story "three"])
              [Sample.failing_listing]
              (page_end_last _)) as [Hcut _].
  cbn [app] in Hcut. rewrite Hcut. unfold fetch_full_stories.
  rewrite (fetch_loop_continue Sample.patchy (-1) false 5 _ _ 0 PyNone
             Sample.cursor1 []
             [Sample.merged "one"; Sample.merged "two"] [] [])
    by (vm_compute; reflexivity).
  cbn [app].
  rewrite (Hstop (Sample.page_end [Sample.story "three"]) [] 1%nat
             Sample.cursor1 [Sample.merged "one"; Sample.merged "two"] []
             (PyDict {[ "items" := PyList [Sample.story "three"] ]})
             [Sample.merged "three"] [] PyNone);
    [reflexivity | by vm_compute..].
Defined.

(** A budget of one and a single page of two items without a next cursor:
    the run returns one record. *)
Example budget_one_on_last_page :
  fetch_full_stories Sample.patchy 1 false 5
    [Sample.page_end [Sample.story "one"; Sample.story "two"]]
  = (Returned BudgetReached [Sample.merged "one"], []).
Proof. by vm_compute. Qed.

(** C7 as it is worded fails when the budget is reached on the page that
    has no next cursor: with a budget of one and a single page of two items,
    the loop returns one record, not the two it has accumulated. *)
Lemma budget_cuts_last_page :
  ¬ (∀ (w : World) (count : Z) (parallel : bool) (max_workers : Z)
       (send : Transport) (n : nat) (cursor : PyVal)
       (all_stories : list PyVal) (printed : list exn)
       (stories_response : PyVal) (batch : list PyVal) (out : list exn)
       (next : PyVal),
       listing send cursor = Ok stories_response →
       process_batch w parallel max_workers n stories_response
         = Ok (batch, out) →
       Py.get stories_response "nextCursor" = Ok next →
       Py.truthy next = false →
       ∃ site,
         fetch_loop w count parallel max_workers [send] n cursor all_stories
           printed = (Returned site (all_stories ++ batch), printed ++ out)).
Proof.
  intros Hclaim.
  destruct (Hclaim Sample.patchy 1 false 5
              (Sample.page_end [Sample.story "one"; Sample.story "two"])
              0%nat PyNone [] []
              (PyDict {[ "items" := PyList [Sample.story "one";
                                            Sample.story "two"] ]})
              [Sample.merged "one"; Sample.merged "two"] [] PyNone)
    as [site Hrun]; [by vm_compute..|].
  vm_compute in Hrun. by injection Hrun.
Qed.

(** C2. With a budget [count ≥ 0], what [fetch_full_stories] returns has at
    most [count] records: exactly [count] when it returns at the budget
    check, fewer only when it returns because the listing ran out.  As soon
    as the accumulator holds [count] records or more after a batch, the
    loop returns its first [count] records and reads no further reply; and
    when the replies keep carrying a next cursor and items that all enrich,
    with at least [count] items in all, the run returns exactly [count]
    records. *)
Theorem budget_respected (w : World) (count : Z) (parallel : bool)
    (max_workers : Z) :
  0 ≤ count →
  (∀ script site stories printed,
     fetch_full_stories w count parallel max_workers script
       = (Returned site stories, printed) →
     Z.of_nat (length stories) ≤ count
     ∧ (site = BudgetReached → Z.of_nat (length stories) = count)
     ∧ (site = ListingExhausted → Z.of_nat (length stories) < count))
  ∧ (∀ send rest n cursor all_stories printed stories_response batch out,
       listing send cursor = Ok stories_response →
       process_batch w parallel max_workers n stories_response
         = Ok (batch, out) →
       count ≤ Z.of_nat (length (all_stories ++ batch)) →
       fetch_loop w count parallel max_workers (send :: rest) n cursor
         all_stories printed =
       (Returned BudgetReached (take (Z.to_nat count) (all_stories ++ batch)),
        printed ++ out)
       ∧ Z.of_nat (length (take (Z.to_nat count) (all_stories ++ batch)))
         = count)
  ∧ (∀ script sizes,
       pool_ok w parallel max_workers →
       script ≠ [] →
       Forall2 (full_page w) script sizes →
       count ≤ Z.of_nat (sum_list sizes) →
       ∃ stories,
         fetch_full_stories w count parallel max_workers script
           = (Returned BudgetReached stories, [])
         ∧ Z.of_nat (length stories) = count).
Proof.
  intros Hcount. split; [|split].
  - intros script site stories printed Hrun.
    pose proof (fetch_loop_budget w count parallel max_workers script 0 PyNone
                  [] [] printed site stories Hcount Hrun) as Hsite.
    destruct site; (split; [lia|]); split; (done || lia).
  - intros send rest n cursor all_stories printed resp batch out
      Hresp Hbatch Hfull.
    pose proof (iteration_batch w count parallel max_workers send n cursor
                  all_stories resp batch out Hresp Hbatch) as Hit.
    assert (Hreached : budget_reached count (all_stories ++ batch) = true).
    { unfold budget_reached. apply andb_true_iff. split.
      - apply negb_true_iff, Z.eqb_neq. lia.
      - by apply Z.leb_le. }
    rewrite Hreached in Hit.
    rewrite (fetch_loop_stop _ _ _ _ _ _ _ _ _ _ _ _ Hit).
    unfold Py.slice_to. rewrite (proj2 (Z.leb_le 0 count)) by done.
    split; [done|]. rewrite length_take. lia.
  - intros script sizes Hpool Hne Hpages Hsupply.
    exact (fetch_loop_full_pages w count parallel max_workers script sizes
             Hcount Hpool Hpages 0%nat PyNone [] [] Hne Hsupply).
Qed.

Lemma page_then_full (items : list PyVal) :
  Forall (λ story, is_ok (process_story Sample.patchy story) = true) items →
  full_page Sample.patchy (Sample.page_then items Sample.cursor1)
    (length items).
Proof.
  intros Hok cursor.
  exists (PyDict {[ "items" := PyList items;
                    "nextCursor" := Sample.cursor1 ]}),
         (PyList items), items, Sample.cursor1.
  split; [done|]. split; [by vm_compute|]. split; [done|]. split; [done|].
  split; [done|]. split; by vm_compute.
Qed.

Lemma budget_respected_witness :
  fetch_full_stories Sample.patchy 2 false 5
    [Sample.page_then [Sample.story "one"; Sample.story "two";
                        Sample.story "three"] Sample.cursor1;
     Sample.failing_listing]
  = (Returned BudgetReached [Sample.merged "one"; Sample.merged "two"], [])
  ∧ ∃ stories,
      fetch_full_stories Sample.patchy 3 true 2
        [Sample.page_then [Sample.story "one"; Sample.story "two"]
           Sample.cursor1;
         Sample.page_then [Sample.story "three"; Sample.story "four"]
           Sample.cursor1]
      = (Returned BudgetReached stories, [])
      ∧ length stories = 3%nat.
Proof.
  split.
  - destruct (budget_respected Sample.patchy 2 false 5) as (_ & Hcut & _);
      [done|].
    destruct (Hcut (Sample.page_then [Sample.story "one";
                                      Sample.story "two";
                                      Sample.story "three"] Sample.cursor1)
                [Sample.failing_listing] 0%nat PyNone [] []
                (PyDict {[ "items" := PyList [Sample.story "one";
                                              Sample.story "two";
                                              Sample.story "three"];
                           "nextCursor" := Sample.cursor1 ]})
                [Sample.merged "one"; Sample.merged "two";
                 Sample.merged "three"] [])
      as [Hrun _]; [by vm_compute | by vm_compute | cbn; lia |].
    exact Hrun.
  - destruct (budget_respected Sample.patchy 3 true 2) as (Hmost & _ & Hfill);
      [done|].
    destruct (Hfill
                [Sample.page_then [Sample.story "one"; Sample.story "two"]
                   Sample.cursor1;
                 Sample.page_then [Sample.story "three";
                                    Sample.story "four"] Sample.cursor1]
                [2%nat; 2%nat] (λ _, conj eq_refl patchy_fair))
      as (stories & Hrun & Hlen).
    + done.
    + repeat constructor.
      * apply (page_then_full [Sample.story "one"; Sample.story "two"]).
        repeat constructor.
      * apply (page_then_full [Sample.story "three"; Sample.story "four"]).
        repeat constructor.
    + cbn. lia.
    + destruct (Hmost _ _ _ _ Hrun) as (_ & Hexact & _).
      exists stories. split; [done|]. specialize (Hexact eq_refl). lia.
Defined.

(** * Further properties *)

(** ** Listing requests *)




(** ** Per-item enrichment *)

(** X2. [process_story] raises exactly when one of its steps does, and
    then with the exception of that step: [TypeError] on a summary that is
    not a dict, [KeyError "slug"] on one without a slug, the exception of
    [requests.get] when the page request raises, [HTTPError] on a 4xx or
    5xx page, [ParserRejectedMarkup] when the HTML parser rejects the page
    that was fetched, and the [ValueError] of a parsed page without an
    article.  Nothing after that raises: neither the walk over the article
    nor the merge with the summary. *)
Theorem process_story_raises (w : World) (story : PyVal) (e : exn) :
  process_story w story = Raise e
  ↔ (e = TypeError ∧ ∀ m, story ≠ PyDict m)
    ∨ (e = KeyError "slug" ∧ ∃ m, story = PyDict m ∧ m !! "slug" = None)
    ∨ ∃ m slug,
        story = PyDict m ∧ m !! "slug" = Some slug
        ∧ ((∃ name, e = RequestException name ∧ page w slug = NoReply name)
           ∨ ∃ status markup,
               page w slug = Reply status markup
               ∧ ((e = HTTPError status ∧ 400 ≤ status < 600)
                  ∨ (¬ (400 ≤ status < 600)
                     ∧ ((e = ParserRejectedMarkup ∧ markup = None)
                        ∨ ∃ soup,
                            markup = Some soup
                            ∧ e = ValueError
                                    "Could not find article content for slug: "
                                    slug
                            ∧ Soup.find "article" soup = None)))).
Proof.
  assert (Hrange : ∀ status,
    (400 <=? status) && (status <? 600) = true ↔ 400 ≤ status < 600).
  { intros status. rewrite andb_true_iff, Z.leb_le, Z.ltb_lt. done. }
  unfold process_story. split.
  - intros Hraise.
    destruct story as [| | | | |m]; try (left; by injection Hraise as <-).
    cbn [Py.getitem] in Hraise.
    destruct (m !! "slug") as [slug|] eqn:Hslug; cycle 1.
    { right; left. injection Hraise as <-. split; [done|]. by exists m. }
    right; right. exists m, slug. split; [done|]. split; [done|].
    cbn [bind] in Hraise. unfold parse_story in Hraise.
    destruct (page w slug) as [name|status markup] eqn:Hpage.
    { left. exists name. by injection Hraise as <-. }
    right. exists status, markup. split; [done|].
    unfold raise_for_status in Hraise.
    destruct ((400 <=? status) && (status <? 600)) eqn:Hst.
    { left. injection Hraise as <-. split; [done|]. by apply Hrange. }
    right. split.
    { intros H%Hrange. by rewrite H in Hst. }
    cbn [bind] in Hraise. destruct markup as [soup|]; cbn [bind] in Hraise.
    2:{ left. by injection Hraise as <-. }
    right. exists soup. split; [done|]. unfold parse_markup in Hraise.
    destruct (Soup.find "article" soup) as [article|] eqn:Hfind.
    + rewrite segment_outline in Hraise. cbn [bind fst snd] in Hraise.
      rewrite !parsed_story_getitem in Hraise. cbn in Hraise. done.
    + by injection Hraise as <-.
  - intros [[-> Hshape]|[[-> (m & -> & Hslug)]|(m & slug & -> & Hslug & Hpage)]].
    + destruct story as [| | | | |m]; try done. by destruct (Hshape m).
    + cbn [Py.getitem]. by rewrite Hslug.
    + cbn [Py.getitem]. rewrite Hslug. cbn [bind]. unfold parse_story.
      destruct Hpage as [(name & -> & ->)|(status & markup & -> & Hreply)];
        [done|].
      unfold raise_for_status.
      destruct Hreply as [[-> Hst%Hrange]|[Hst Hmarkup]].
      { by rewrite Hst. }
      destruct ((400 <=? status) && (status <? 600)) eqn:E.
      { by apply Hrange in E. }
      cbn [bind].
      destruct Hmarkup as [[-> ->]|(soup & -> & -> & Hfind)]; [done|].
      cbn [bind]. unfold parse_markup. by rewrite Hfind.
Qed.

Lemma process_story_raises_witness :
  process_story unparsable (Sample.story "one") = Raise ParserRejectedMarkup
  ∧ process_story unreachable (Sample.story "one")
    = Raise (RequestException "Timeout").
Proof.
  split; apply process_story_raises; right; right;
    exists {[ "slug" := PyStr "one"; "title" := PyStr "A story" ]},
           (PyStr "one");
    (split; [reflexivity|]); (split; [by vm_compute|]).
  - right. exists 200, None. split; [reflexivity|]. right.
    split; [lia|]. by left.
  - left. by exists "Timeout".
Defined.

(** ** One batch and one turn *)

Lemma survivors_failures_length (w : World) (items : list PyVal) :
  (length (survivors w items) + length (failures w items))%nat = length items.
Proof.
  induction items as [|story items IH]; [done|].
  unfold survivors, failures, failure_of in *. cbn [omap list_omap].
  destruct (process_story w story); cbn [result_to_option length]; lia.
Qed.

(** X3. In a batch every item ends up exactly once: as a merged record or
    as a printed exception.  The records and the printed lines together are
    as many as the items, in either mode. *)
Theorem batch_accounts_for_items (w : World) (parallel : bool)
    (max_workers : Z) (n : nat) (stories_response items_value : PyVal)
    (items batch : list PyVal) (printed : list exn) :
  pool_ok w parallel max_workers →
  Py.getitem stories_response "items" = Ok items_value →
  Py.iter items_value = Ok items →
  process_batch w parallel max_workers n stories_response
    = Ok (batch, printed) →
  (length batch + length printed)%nat = length items
  ∧ batch ≡ₚ survivors w items
  ∧ printed ≡ₚ failures w items.
Proof.
  intros Hpool Hitems Hiter Hbatch.
  destruct (process_batch_survivors w parallel max_workers n stories_response
              items_value items Hpool Hitems Hiter)
    as (batch' & printed' & Hbatch' & Hb & Hp).
  rewrite Hbatch in Hbatch'. injection Hbatch' as <- <-.
  split; [|done].
  rewrite (Permutation_length Hb), (Permutation_length Hp).
  apply survivors_failures_length.
Qed.

Lemma batch_accounts_for_items_witness :
  process_batch Sample.patchy true 2 0
    (PyDict {[ "items" := PyList [Sample.story "gone"; Sample.story "one";
                                  PyStr "not a summary"] ]})
    = Ok ([Sample.merged "one"], [TypeError; HTTPError 404])
  ∧ (length [Sample.merged "one"] + length [TypeError; HTTPError 404])%nat
    = 3%nat.
Proof.
  assert (Hrun : process_batch Sample.patchy true 2 0
                   (PyDict {[ "items" := PyList [Sample.story "gone";
                                                 Sample.story "one";
                                                 PyStr "not a summary"] ]})
                 = Ok ([Sample.merged "one"], [TypeError; HTTPError 404]))
    by (by vm_compute).
  split; [exact Hrun|].
  apply (batch_accounts_for_items Sample.patchy true 2 0
           (PyDict {[ "items" := PyList [Sample.story "gone";
                                         Sample.story "one";
                                         PyStr "not a summary"] ]})
           (PyList [Sample.story "gone"; Sample.story "one";
                    PyStr "not a summary"])
           [Sample.story "gone"; Sample.story "one"; PyStr "not a summary"]
           [Sample.merged "one"] [TypeError; HTTPError 404]).
  - intros _. split; [done | apply patchy_fair].
  - by vm_compute.
  - done.
  - exact Hrun.
Defined.

Lemma process_batch_ok_dict (w : World) (parallel : bool) (max_workers : Z)
    (n : nat) (stories_response : PyVal) (r : list PyVal * list exn) :
  process_batch w parallel max_workers n stories_response = Ok r →
  ∃ m, stories_response = PyDict m.
Proof.
  unfold process_batch. intros H.
  assert (∃ v, Py.getitem stories_response "items" = Ok v) as [v Hv].
  { destruct parallel; [destruct (max_workers <=? 0); [done|]|];
      destruct (Py.getitem stories_response "items"); by eauto. }
  apply getitem_dict in Hv as (m & -> & _). by exists m.
Qed.

(** X4. A turn of the loop raises in exactly these cases, and then it has
    printed nothing: the listing request raised; or, the response decoded,
    parallel mode was asked with a pool width that is not positive
    ([ValueError], before the items are looked at); or the response has no
    "items" entry or one that cannot be iterated.  A failing item never
    makes the turn raise. *)
Theorem turn_raises (w : World) (count : Z) (parallel : bool)
    (max_workers : Z) (send : Transport) (n : nat) (cursor : PyVal)
    (all_stories : list PyVal) (e : exn) (out : list exn) :
  iteration w count parallel max_workers send n cursor all_stories
    = (Stop (Raised e), out)
  ↔ out = []
    ∧ (listing send cursor = Raise e
       ∨ ∃ stories_response,
           listing send cursor = Ok stories_response
           ∧ ((parallel = true ∧ max_workers ≤ 0
               ∧ e = ValueError "max_workers must be greater than 0" PyNone)
              ∨ ((parallel = false ∨ 0 < max_workers)
                 ∧ (Py.getitem stories_response "items" = Raise e
                    ∨ ∃ items_value,
                        Py.getitem stories_response "items" = Ok items_value
                        ∧ Py.iter items_value = Raise e)))).
Proof.
  unfold iteration, listing.
  destruct (fetch_stories send "en" batch_size ["Bachelor"] cursor)
    as [resp|e0] eqn:Hresp.
  2:{ split.
      - intros [= <- <-]. split; [done|]. by left.
      - intros [-> [[= ->]|(resp & [=] & _)]]. done. }
  destruct (process_batch w parallel max_workers n resp)
    as [[batch printed]|e0] eqn:Hbatch.
  - split.
    + destruct (process_batch_ok_dict _ _ _ _ _ _ Hbatch) as [m ->].
      destruct (budget_reached _ _); [done|]. cbn [Py.get].
      by destruct (Py.truthy _).
    + intros [_ [[=]|(resp' & [= <-] & Hcase)]]. exfalso.
      unfold process_batch in Hbatch.
      destruct Hcase as [(-> & Hle & _)|[Hmode Hitems]].
      * by rewrite (proj2 (Z.leb_le _ _) Hle) in Hbatch.
      * assert (Hrun : (let* items_value := Py.getitem resp "items" in
                        let* items := Py.iter items_value in
                        Ok (foldl (try_story w) ([], [])
                              (if parallel then completion w n items
                               else items))) = Ok (batch, printed)).
        { destruct parallel; [|done].
          by destruct (max_workers <=? 0). }
        destruct Hitems as [Hi|(iv & Hi & Hiter)]; rewrite Hi in Hrun;
          [done|]. cbn [bind] in Hrun. by rewrite Hiter in Hrun.
  - split.
    + intros [= <- <-]. split; [done|]. right. exists resp. split; [done|].
      unfold process_batch in Hbatch. destruct parallel.
      * destruct (max_workers <=? 0) eqn:Hw.
        { left. apply Z.leb_le in Hw. by injection Hbatch as <-. }
        right. apply Z.leb_gt in Hw. split; [by right|].
        destruct (Py.getitem resp "items") as [iv|] eqn:Hi;
          [|left; by injection Hbatch as <-].
        right. exists iv. split; [done|]. cbn [bind] in Hbatch.
        destruct (Py.iter iv); [done|]. by injection Hbatch as <-.
      * right. split; [by left|].
        destruct (Py.getitem resp "items") as [iv|] eqn:Hi;
          [|left; by injection Hbatch as <-].
        right. exists iv. split; [done|]. cbn [bind] in Hbatch.
        destruct (Py.iter iv); [done|]. by injection Hbatch as <-.
    + intros [-> [[=]|(resp' & [= <-] & Hcase)]].
      unfold process_batch in Hbatch.
      destruct Hcase as [(-> & Hle & ->)|[Hmode Hitems]].
      * rewrite (proj2 (Z.leb_le _ _) Hle) in Hbatch. by injection Hbatch as <-.
      * assert (Hrun : (let* items_value := Py.getitem resp "items" in
                        let* items := Py.iter items_value in
                        Ok (foldl (try_story w) ([], [])
                              (if parallel then completion w n items
                               else items))) = Raise e0).
        { destruct parallel; [|done].
          destruct Hmode as [[=]|Hpos].
          by rewrite (proj2 (Z.leb_gt _ _) Hpos) in Hbatch. }
        destruct Hitems as [Hi|(iv & Hi & Hiter)]; rewrite Hi in Hrun.
        { by injection Hrun as <-. }
        cbn [bind] in Hrun. rewrite Hiter in Hrun. by injection Hrun as <-.
Qed.

Lemma turn_raises_witness :
  iteration Sample.patchy 20 true 0
    (Sample.page_end [Sample.story "one"]) 0 PyNone []
  = (Stop (Raised (ValueError "max_workers must be greater than 0" PyNone)),
     [])
  ∧ iteration Sample.patchy 20 false 5
      (λ _, Reply 200 (Some (Sample.envelope (PyDict ∅)))) 0 PyNone []
    = (Stop (Raised (KeyError "items")), []).
Proof.
  split.
  - apply turn_raises. split; [done|]. right.
    exists (PyDict {[ "items" := PyList [Sample.story "one"] ]}).
    split; [by vm_compute|]. left. by repeat split.
  - apply turn_raises. split; [done|]. right. exists (PyDict ∅).
    split; [by vm_compute|]. right. split; [by left|]. by left.
Defined.

(** ** Whole runs *)

(** X5. A budget that is not positive (and is not the sentinel -1) ends the
    run after the first page, whatever its cursor: the page is requested and
    its batch enriched all the same, then [count = 0] returns the empty
    list and [count < -1] returns the batch without its last [-count]
    records. *)
Theorem nonpositive_budget (w : World) (count : Z) (parallel : bool)
    (max_workers : Z) (send : Transport) (rest : list Transport)
    (stories_response : PyVal) (batch : list PyVal) (out : list exn) :
  listing send PyNone = Ok stories_response →
  process_batch w parallel max_workers 0 stories_response = Ok (batch, out) →
  (count = 0 →
   fetch_full_stories w count parallel max_workers (send :: rest)
   = (Returned BudgetReached [], out))
  ∧ (count < -1 →
     fetch_full_stories w count parallel max_workers (send :: rest)
     = (Returned BudgetReached
          (take (length batch - Z.to_nat (- count)) batch), out)).
Proof.
  intros Hresp Hbatch. unfold fetch_full_stories.
  pose proof (iteration_batch w count parallel max_workers send 0 PyNone []
                stories_response batch out Hresp Hbatch) as Hit.
  assert (Hreached : count ≤ 0 → count ≠ -1 →
                     budget_reached count ([] ++ batch) = true).
  { intros Hle Hne. unfold budget_reached. apply andb_true_iff. split.
    - by apply negb_true_iff, Z.eqb_neq.
    - apply Z.leb_le. lia. }
  split; intros Hcount.
  - rewrite Hreached in Hit by lia.
    rewrite (fetch_loop_stop _ _ _ _ _ _ _ _ _ _ _ _ Hit). subst count.
    by cbn.
  - rewrite Hreached in Hit by lia.
    rewrite (fetch_loop_stop _ _ _ _ _ _ _ _ _ _ _ _ Hit). cbn [app].
    unfold Py.slice_to. rewrite (proj2 (Z.leb_gt 0 count)) by lia.
    do 3 f_equal. lia.
Qed.

Lemma nonpositive_budget_witness :
  fetch_full_stories Sample.patchy (-2) false 5
    [Sample.page_then [Sample.story "one"; Sample.story "two";
                       Sample.story "three"] Sample.cursor1;
     Sample.failing_listing]
  = (Returned BudgetReached [Sample.merged "one"], [])
  ∧ fetch_full_stories Sample.patchy 0 false 5
      [Sample.page_then [Sample.story "one"; Sample.story "gone"]
         Sample.cursor1]
    = (Returned BudgetReached [], [HTTPError 404]).
Proof.
  split.
  - destruct (nonpositive_budget Sample.patchy (-2) false 5
                (Sample.page_then [Sample.story "one"; Sample.story "two";
                                   Sample.story "three"] Sample.cursor1)
                [Sample.failing_listing]
                (PyDict {[ "items" := PyList [Sample.story "one";
                                              Sample.story "two";
                                              Sample.story "three"];
                           "nextCursor" := Sample.cursor1 ]})
                [Sample.merged "one"; Sample.merged "two";
                 Sample.merged "three"] [])
      as [_ Hneg]; [by vm_compute | by vm_compute |].
    apply Hneg. lia.
  - destruct (nonpositive_budget Sample.patchy 0 false 5
                (Sample.page_then [Sample.story "one"; Sample.story "gone"]
                   Sample.cursor1)
                []
                (PyDict {[ "items" := PyList [Sample.story "one";
                                              Sample.story "gone"];
                           "nextCursor" := Sample.cursor1 ]})
                [Sample.merged "one"] [HTTPError 404])
      as [Hzero _]; [by vm_compute | by vm_compute |].
    by apply Hzero.
Defined.

Lemma fetch_loop_unbounded (w : World) (max_workers : Z)
    (script : list Transport) (pages : list (list PyVal))
    (last : Transport) (last_items : list PyVal) (rest : list Transport) :
  Forall2 (λ send items, serves send items true) script pages →
  serves last last_items false →
  ∀ n cursor all_stories printed,
    fetch_loop w (-1) false max_workers (script ++ last :: rest) n cursor
      all_stories printed
    = (Returned ListingExhausted
         (all_stories ++ survivors w (concat pages ++ last_items)),
       printed ++ failures w (concat pages ++ last_items)).
Proof.
  intros Hpages Hlast.
  induction Hpages as [|send items script pages Hsend _ IH];
    intros n cursor all_stories printed.
  - destruct (Hlast cursor) as (resp & iv & next & Hresp & Hi & Hiter & Hn & Hf).
    pose proof (iteration_batch w (-1) false max_workers last n cursor
                  all_stories resp _ _ Hresp
                  (process_batch_sequential w max_workers n resp iv last_items
                     Hi Hiter)) as Hit.
    rewrite Hn, Hf in Hit. cbn [budget_reached Z.eqb negb andb] in Hit.
    cbn [app concat]. by rewrite (fetch_loop_stop _ _ _ _ _ _ _ _ _ _ _ _ Hit).
  - destruct (Hsend cursor) as (resp & iv & next & Hresp & Hi & Hiter & Hn & Hf).
    pose proof (iteration_batch w (-1) false max_workers send n cursor
                  all_stories resp _ _ Hresp
                  (process_batch_sequential w max_workers n resp iv items
                     Hi Hiter)) as Hit.
    rewrite Hn, Hf in Hit. cbn [budget_reached Z.eqb negb andb] in Hit.
    cbn [app concat].
    rewrite (fetch_loop_continue _ _ _ _ _ _ _ _ _ _ _ _ _ Hit), IH.
    unfold survivors, failures.
    by rewrite !omap_app, !app_assoc.
Qed.

(** X6. Without a budget and in sequential mode, a walk over pages that
    all decode returns, at the first page without a next cursor, the merged
    records of all pages in listing order (page after page, item after
    item, failed items left out), and has printed the exceptions of the
    failed items in the same order; replies after that page are not read. *)
Theorem unbounded_walk (w : World) (max_workers : Z)
    (script : list Transport) (pages : list (list PyVal))
    (last : Transport) (last_items : list PyVal) (rest : list Transport) :
  Forall2 (λ send items, serves send items true) script pages →
  serves last last_items false →
  fetch_full_stories w (-1) false max_workers (script ++ last :: rest)
  = (Returned ListingExhausted
       (concat (survivors w <$> (pages ++ [last_items]))),
     concat (failures w <$> (pages ++ [last_items]))).
Proof.
  intros Hpages Hlast. unfold fetch_full_stories.
  rewrite (fetch_loop_unbounded w max_workers script pages last last_items
             rest Hpages Hlast). cbn [app]. f_equal.
  - f_equal. rewrite fmap_app, concat_app. cbn. rewrite app_nil_r.
    unfold survivors. rewrite omap_app. f_equal.
    clear. induction pages as [|p pages IH]; [done|].
    cbn. by rewrite omap_app, IH.
  - rewrite fmap_app, concat_app. cbn. rewrite app_nil_r.
    unfold failures. rewrite omap_app. f_equal.
    clear. induction pages as [|p pages IH]; [done|].
    cbn. by rewrite omap_app, IH.
Qed.

Lemma page_then_serves (items : list PyVal) :
  serves (Sample.page_then items Sample.cursor1) items true.
Proof.
  intros cursor.
  exists (PyDict {[ "items" := PyList items;
                    "nextCursor" := Sample.cursor1 ]}),
         (PyList items), Sample.cursor1.
  split; [done|]. split; [by vm_compute|]. split; [done|].
  split; by vm_compute.
Qed.

Lemma page_end_serves (items : list PyVal) :
  serves (Sample.page_end items) items false.
Proof.
  intros cursor.
  exists (PyDict {[ "items" := PyList items ]}), (PyList items), PyNone.
  split; [done|]. split; [by vm_compute|]. split; [done|].
  split; by vm_compute.
Qed.

Lemma unbounded_walk_witness :
  fetch_full_stories Sample.patchy (-1) false 5
    [Sample.page_then [Sample.story "one"; Sample.story "gone"]
       Sample.cursor1;
     Sample.page_end [Sample.story "three"];
     Sample.failing_listing]
  = (Returned ListingExhausted [Sample.merged "one"; Sample.merged "three"],
     [HTTPError 404]).
Proof.
  pose proof (unbounded_walk Sample.patchy 5
                [Sample.page_then [Sample.story "one"; Sample.story "gone"]
                   Sample.cursor1]
                [[Sample.story "one"; Sample.story "gone"]]
                (Sample.page_end [Sample.story "three"])
                [Sample.story "three"] [Sample.failing_listing]) as Hwalk.
  cbn [app] in Hwalk. rewrite Hwalk.
  - by vm_compute.
  - repeat constructor. apply page_then_serves.
  - apply page_end_serves.
Defined.

(** ** The cursor *)

Lemma fetch_stories_agree (send1 send2 : Transport) (lang : string)
    (limit : Z) (types : list string) (cursor : PyVal) :
  send1 (create_request_payload lang limit types cursor)
    = send2 (create_request_payload lang limit types cursor) →
  fetch_stories send1 lang limit types cursor
    = fetch_stories send2 lang limit types cursor.
Proof. unfold fetch_stories. by intros ->. Qed.

Lemma iteration_agree (w : World) (count : Z) (parallel : bool)
    (max_workers : Z) (send1 send2 : Transport) (n : nat) (cursor : PyVal)
    (all_stories : list PyVal) :
  send1 (create_request_payload "en" batch_size ["Bachelor"] cursor)
    = send2 (create_request_payload "en" batch_size ["Bachelor"] cursor) →
  iteration w count parallel max_workers send1 n cursor all_stories
    = iteration w count parallel max_workers send2 n cursor all_stories.
Proof.
  intros H. unfold iteration. by rewrite (fetch_stories_agree send1 send2).
Qed.

Lemma payload_cursor_spec (lang : string) (limit : Z) (types : list string)
    (cursor : PyVal) :
  payload_cursor (create_request_payload lang limit types cursor) =
  if Py.truthy cursor then Ok cursor else Raise (KeyError "cursor").
Proof.
  unfold payload_cursor, create_request_payload. cbn [Py.getitem].
  rewrite lookup_singleton_eq. cbn [bind Py.getitem].
  rewrite lookup_insert_eq. cbn [bind Py.getitem].
  destruct (Py.truthy cursor); by simplify_map_eq.
Qed.

(** X7. The cursor goes round unchanged.  The first request carries no
    "cursor" entry, as does any request built from a falsy cursor; when a
    turn goes on, the cursor it hands over is the "nextCursor" of the
    response it just decoded, it is truthy, and it is the "cursor" entry of
    the next request: the reply to that one payload is all the next turn
    takes from the network. *)
Theorem cursor_round_trip (w : World) (count : Z) (parallel : bool)
    (max_workers : Z) :
  (∀ lang limit types cursor,
     payload_cursor (create_request_payload lang limit types cursor) =
     if Py.truthy cursor then Ok cursor else Raise (KeyError "cursor"))
  ∧ (∀ send1 send2 rest,
       send1 (create_request_payload "en" batch_size ["Bachelor"] PyNone)
         = send2 (create_request_payload "en" batch_size ["Bachelor"] PyNone) →
       fetch_full_stories w count parallel max_workers (send1 :: rest)
       = fetch_full_stories w count parallel max_workers (send2 :: rest))
  ∧ (∀ send send1 send2 rest n cursor all_stories printed next all_stories'
       out,
       iteration w count parallel max_workers send n cursor all_stories
         = (Continue next all_stories', out) →
       (∃ stories_response,
          listing send cursor = Ok stories_response
          ∧ Py.get stories_response "nextCursor" = Ok next)
       ∧ Py.truthy next = true
       ∧ (send1 (create_request_payload "en" batch_size ["Bachelor"] next)
            = send2 (create_request_payload "en" batch_size ["Bachelor"] next) →
          fetch_loop w count parallel max_workers (send :: send1 :: rest) n
            cursor all_stories printed
          = fetch_loop w count parallel max_workers (send :: send2 :: rest) n
              cursor all_stories printed)).
Proof.
  split; [apply payload_cursor_spec|]. split.
  - intros send1 send2 rest Hagree. unfold fetch_full_stories.
    cbn [fetch_loop]. by rewrite (iteration_agree _ _ _ _ send1 send2).
  - intros send send1 send2 rest n cursor all_stories printed next all' out
      Hit. split; [|split].
    + unfold iteration, listing in *.
      destruct (fetch_stories send _ _ _ cursor) as [resp|]; [|done].
      exists resp. split; [done|].
      destruct (process_batch _ _ _ _ _) as [[batch pr]|]; [|done].
      destruct (budget_reached _ _); [done|].
      destruct (Py.get resp "nextCursor") as [c|]; [|done].
      destruct (Py.truthy c); [|done]. by injection Hit as <- _ _.
    + unfold iteration in Hit.
      destruct (fetch_stories send _ _ _ cursor) as [resp|]; [|done].
      destruct (process_batch _ _ _ _ _) as [[batch pr]|]; [|done].
      destruct (budget_reached _ _); [done|].
      destruct (Py.get resp "nextCursor") as [c|]; [|done].
      destruct (Py.truthy c) eqn:Hc; [|done]. by injection Hit as <- _ _.
    + intros Hagree.
      rewrite !(fetch_loop_continue _ _ _ _ _ _ _ _ _ _ _ _ _ Hit).
      cbn [fetch_loop]. by rewrite (iteration_agree _ _ _ _ send1 send2).
Qed.

Lemma cursor_round_trip_witness :
  fetch_full_stories Sample.patchy (-1) false 5
    [Sample.page_then [Sample.story "one"] Sample.cursor1;
     only_cursor1 [Sample.story "two"]]
  = fetch_full_stories Sample.patchy (-1) false 5
      [Sample.page_then [Sample.story "one"] Sample.cursor1;
       Sample.page_end [Sample.story "two"]].
Proof.
  destruct (cursor_round_trip Sample.patchy (-1) false 5) as (_ & _ & Hturn).
  destruct (Hturn (Sample.page_then [Sample.story "one"] Sample.cursor1)
              (only_cursor1 [Sample.story "two"])
              (Sample.page_end [Sample.story "two"]) [] 0%nat PyNone [] []
              Sample.cursor1 [Sample.merged "one"] [])
    as (_ & _ & Hsame); [by vm_compute|].
  apply Hsame. by vm_compute.
Defined.

(** ** The segmenter: nothing lost, nothing invented *)

Section Conservation.
Import Segmenter Outline.

Lemma until_from_heading (l : list Node) :
  l = until_heading l ++ from_heading l.
Proof.
  induction l as [|x l IH]; [done|]. cbn.
  destruct (decide (is_heading x)); [done|]. cbn. by f_equal.
Qed.

Lemma until_heading_no_heading (l : list Node) :
  Forall (λ n, ¬ is_heading n) (until_heading l).
Proof.
  induction l as [|x l IH]; [constructor|]. cbn.
  destruct (decide (is_heading x)); by constructor.
Qed.

Lemma from_heading_cons_heading (x : Node) (l : list Node) :
  is_heading x → from_heading (x :: l) = x :: l.
Proof. intros H. cbn. by rewrite decide_True. Qed.

Lemma outline_from_heading (l : list Node) :
  outline (from_heading l) = outline l.
Proof.
  rewrite (until_from_heading l) at 2.
  by rewrite outline_skip by apply until_heading_no_heading.
Qed.

Lemma images_outline (l : list Node) :
  concat (images <$> outline l) = images_seen (from_heading l).
Proof.
  induction l as [|x l IH]; [done|]. unfold outline in *. cbn [chunks from_heading].
  destruct (decide (is_heading x)) as [Hx|Hx]; [|done].
  cbn [fmap list_fmap concat section_of images snd]. rewrite IH.
  unfold images_seen. cbn [omap list_omap]. rewrite image_of_heading by done.
  by rewrite <- omap_app, <- until_from_heading.
Qed.

Lemma images_seen_nonempty (l : list Node) :
  Forall (λ url, url ≠ "") (images_seen l).
Proof.
  apply Forall_forall. intros url [n [_ Hn]]%list_elem_of_omap.
  by eapply image_of_nonempty.
Qed.

(** X8. The images of the sections, taken in order, are exactly the images
    met from the first heading on: none is lost, repeated or moved.  The
    main image is the first of the images met before the first heading
    followed by those of the sections; no recorded image is the empty
    string, and the main image is missing only when the walk met no
    image. *)
Theorem images_accounted (article : Node) :
  ∃ secs img,
    segment article = Ok (secs, img)
    ∧ concat (images <$> secs) = images_seen (from_heading (walked article))
    ∧ img = head (images_seen (until_heading (walked article))
                  ++ concat (images <$> secs))
    ∧ Forall (λ s, Forall (λ url, url ≠ "") (images s)) secs
    ∧ img ≠ Some ""
    ∧ (img = None ↔ images_seen (walked article) = []).
Proof.
  exists (outline (walked article)), (head (images_seen (walked article))).
  split; [apply segment_outline|]. split; [apply images_outline|].
  split.
  { rewrite images_outline. unfold images_seen.
    by rewrite <- omap_app, <- until_from_heading. }
  split.
  { unfold outline. apply Forall_fmap, Forall_forall. intros c _.
    apply images_seen_nonempty. }
  split.
  { pose proof (images_seen_nonempty (walked article)) as H.
    destruct (images_seen (walked article)) as [|u us]; [done|].
    apply Forall_cons in H as [H _]. cbn. by intros [= ->]. }
  by destruct (images_seen (walked article)).
Qed.

Lemma join_app (l1 l2 : list string) :
  Str.join (l1 ++ l2) = Str.join l1 +:+ Str.join l2.
Proof.
  induction l1 as [|s l1 IH]; [done|].
  cbn [Str.join app]. by rewrite IH, append_assoc.
Qed.

Lemma paragraph_text_app (l1 l2 : list Node) :
  paragraph_text (l1 ++ l2) = paragraph_text l1 +:+ paragraph_text l2.
Proof. unfold paragraph_text. by rewrite filter_app, fmap_app, join_app. Qed.

Lemma content_outline (l : list Node) :
  Str.join (content <$> outline l) = paragraph_text (from_heading l).
Proof.
  induction l as [|x l IH]; [done|]. unfold outline in *.
  cbn [chunks from_heading].
  destruct (decide (is_heading x)) as [Hx|Hx]; [|done].
  cbn [fmap list_fmap Str.join section_of content snd]. rewrite IH.
  rewrite (until_from_heading l) at 3.
  change (x :: until_heading l ++ from_heading l)
    with ([x] ++ until_heading l ++ from_heading l).
  rewrite !paragraph_text_app. unfold paragraph_text at 3.
  rewrite filter_cons_False; [done|].
  unfold is_heading, is_paragraph in *. rewrite Hx. by intros [=].
Qed.

(** X9. The bodies of the sections, put end to end, are the stripped texts
    of all the paragraphs met from the first heading on, each followed by a
    newline, in document order: no paragraph after the first heading is
    dropped, repeated or moved to another place. *)
Theorem text_accounted (article : Node) :
  ∃ secs img,
    segment article = Ok (secs, img)
    ∧ Str.join (content <$> secs) =
      Str.join ((λ p, Soup.get_text_strip p +:+ Str.newline)
                  <$> filter is_paragraph (from_heading (walked article))).
Proof.
  exists (outline (walked article)), (head (images_seen (walked article))).
  split; [apply segment_outline | apply content_outline].
Qed.

(** X10. Only the [div] children of the article are read: taking every
    other child away (links, text, headings or figures placed directly in
    the article) changes nothing, nor does the tag or the attributes of the
    container. *)
Theorem only_wrappers_read (nm nm' : string) (a a' : gmap string string)
    (ch : list Node) :
  segment (Tag nm a ch) =
  segment (Tag nm' a' (filter (λ el, Soup.name el = Some "div") ch)).
Proof.
  rewrite !segment_outline.
  assert (walked (Tag nm a ch) =
          walked (Tag nm' a' (filter (λ el, Soup.name el = Some "div") ch)))
    as ->; [|done].
  unfold walked. cbn [Soup.children].
  induction ch as [|el ch IH]; [done|]. cbn [flat_map].
  destruct (decide (Soup.name el = Some "div")) as [Hd|Hd].
  - rewrite filter_cons_True by done. cbn [flat_map].
    rewrite decide_True by done. by f_equal.
  - by rewrite filter_cons_False.
Qed.

End Conservation.

(** ** Stripping *)

Lemma rev_app_append (s acc : string) :
  String.rev_app s acc = String.rev s +:+ acc.
Proof.
  unfold String.rev. revert acc.
  induction s as [|c s IH]; intros acc; [done|]. cbn [String.rev_app].
  rewrite IH, (IH (String c "")). by rewrite append_assoc.
Qed.

Lemma rev_cons (c : Ascii.ascii) (s : string) :
  String.rev (String c s) = String.rev s +:+ String c "".
Proof. unfold String.rev at 1. cbn [String.rev_app]. apply rev_app_append. Qed.

Lemma rev_append (s t : string) :
  String.rev (s +:+ t) = String.rev t +:+ String.rev s.
Proof.
  induction s as [|c s IH].
  - change ("" +:+ t) with t. change (String.rev "") with "".
    by rewrite append_nil_r.
  - rewrite append_cons, !rev_cons, IH. by rewrite append_assoc.
Qed.

Lemma rev_involutive (s : string) : String.rev (String.rev s) = s.
Proof.
  induction s as [|c s IH]; [done|].
  rewrite rev_cons, rev_append, IH. done.
Qed.

Lemma blank_append (s t : string) : blank (s +:+ t) = blank s && blank t.
Proof.
  induction s as [|c s IH]; [done|].
  rewrite append_cons. cbn [blank]. by rewrite IH, andb_assoc.
Qed.

Lemma blank_rev (s : string) : blank (String.rev s) = blank s.
Proof.
  induction s as [|c s IH]; [done|].
  rewrite rev_cons, blank_append, IH. cbn [blank].
  by rewrite andb_true_r, andb_comm.
Qed.

Lemma lstrip_suffix (s : string) :
  ∃ pre, s = pre +:+ Str.lstrip s ∧ blank pre = true.
Proof.
  induction s as [|c s (pre & IH & Hpre)]; [by exists ""|]. cbn [Str.lstrip].
  destruct (Str.isspace c) eqn:Hc.
  - exists (String c pre). rewrite append_cons, <- IH. cbn [blank].
    by rewrite Hc, Hpre.
  - by exists "".
Qed.

Lemma lstrip_head (s : string) (c : Ascii.ascii) (s' : string) :
  Str.lstrip s = String c s' → Str.isspace c = false.
Proof.
  induction s as [|d s IH]; [done|]. cbn [Str.lstrip].
  destruct (Str.isspace d) eqn:Hd; [done|]. by intros [= <- _].
Qed.

Lemma rstrip_prefix (s : string) :
  ∃ post, s = Str.rstrip s +:+ post ∧ blank post = true.
Proof.
  unfold Str.rstrip.
  destruct (lstrip_suffix (String.rev s)) as (pre & Hpre & Hblank).
  exists (String.rev pre). split; [|by rewrite blank_rev].
  rewrite <- rev_append, <- Hpre. by rewrite rev_involutive.
Qed.

Lemma last_char_rev (c : Ascii.ascii) (s : string) :
  Str.last_char (String.rev (String c s)) = Some c.
Proof. rewrite rev_cons. by rewrite last_char_append_cons. Qed.

Lemma rstrip_last (s : string) (c : Ascii.ascii) :
  Str.last_char (Str.rstrip s) = Some c → Str.isspace c = false.
Proof.
  unfold Str.rstrip.
  destruct (Str.lstrip (String.rev s)) as [|d t] eqn:E; [done|].
  rewrite last_char_rev. intros [= <-]. by eapply lstrip_head.
Qed.

Lemma strip_trimmed (s : string) : trimmed (Str.strip s).
Proof.
  unfold Str.strip. split.
  - intros c s' Hs.
    destruct (rstrip_prefix (Str.lstrip s)) as (post & Hpost & _).
    rewrite Hs, append_cons in Hpost. by eapply lstrip_head.
  - apply rstrip_last.
Qed.

Lemma strip_middle (s : string) :
  ∃ pre post,
    s = pre +:+ (Str.strip s +:+ post)
    ∧ blank pre = true ∧ blank post = true.
Proof.
  destruct (lstrip_suffix s) as (pre & Hpre & Hb1).
  destruct (rstrip_prefix (Str.lstrip s)) as (post & Hpost & Hb2).
  exists pre, post. unfold Str.strip. by rewrite <- Hpost.
Qed.

Lemma join_trimmed (l : list string) :
  Forall (λ s, s ≠ "" ∧ trimmed s) l → trimmed (Str.join l).
Proof.
  induction 1 as [|s l [Hne [Hhead Hlast]] _ [IHhead IHlast]]; [by split|].
  cbn [Str.join]. split.
  - intros c s' Heq. destruct s as [|d s0]; [done|].
    rewrite append_cons in Heq. injection Heq as <- _. by eapply Hhead.
  - intros c. destruct (decide (Str.join l = "")) as [->|Hl].
    + rewrite append_nil_r. apply Hlast.
    + rewrite last_char_append_nonempty by done. apply IHlast.
Qed.

Lemma get_text_strip_trimmed (n : Node) : trimmed (Soup.get_text_strip n).
Proof.
  unfold Soup.get_text_strip. apply join_trimmed, Forall_forall.
  intros s [Hne Hin]%list_elem_of_filter. split; [done|].
  apply list_elem_of_fmap in Hin as (t & -> & _). apply strip_trimmed.
Qed.

(** X11. [str.strip()] as the segmenter uses it takes away whitespace
    only, and all of it at both ends: the string is some whitespace, the
    stripped string, some whitespace, and the stripped string neither begins
    nor ends with a whitespace character.  So no section title begins or
    ends with whitespace (it may be empty, and may hold whitespace inside),
    and the same holds for what each paragraph adds before its newline. *)
Theorem titles_trimmed (article : Node) :
  (∀ s, trimmed (Str.strip s)
        ∧ ∃ pre post,
            s = pre +:+ (Str.strip s +:+ post)
            ∧ blank pre = true ∧ blank post = true)
  ∧ (∀ n, trimmed (Soup.get_text_strip n))
  ∧ ∃ secs img,
      Segmenter.segment article = Ok (secs, img)
      ∧ Forall (λ s, trimmed (title s)) secs.
Proof.
  split; [intros s; split; [apply strip_trimmed | apply strip_middle]|].
  split; [apply get_text_strip_trimmed|].
  exists (Outline.outline (Outline.walked article)),
         (head (Outline.images_seen (Outline.walked article))).
  split; [apply segment_outline|]. unfold Outline.outline.
  apply Forall_fmap, Forall_forall. intros c _. apply get_text_strip_trimmed.
Qed.

(** ** Saving and [main] *)

Lemma endswith_refl (s : string) : Path.endswith s s = true.
Proof. destruct s; cbn; by rewrite bool_decide_eq_true_2. Qed.

Lemma endswith_prepend (s t suf : string) :
  Path.endswith t suf = true → Path.endswith (s +:+ t) suf = true.
Proof.
  intros H. induction s as [|c s IH]; [done|].
  rewrite append_cons. cbn [Path.endswith].
  by destruct (bool_decide (String c (s +:+ t) = suf)).
Qed.

Lemma endswith_append (s suf : string) : Path.endswith (s +:+ suf) suf = true.
Proof. apply endswith_prepend, endswith_refl. Qed.


Lemma default_name_endswith (stamp : string) :
  Path.endswith ("stories_" +:+ (stamp +:+ ".json")) ".json" = true.
Proof. apply endswith_prepend, endswith_append. Qed.






Lemma main_path (h : Host) :
  Path.join "data" (json_filename h None)
  = "data/stories_" +:+ (strftime_now h +:+ ".json").
Proof.
  unfold json_filename. by rewrite default_name_endswith.
Qed.

(** X13. [main] lets no exception out, and ends in one of three ways.  It
    has written one file, data/stories_<clock>.json, holding the whole of
    the document of the stories the walk returned (at most 20, with
    "story_count" their number), and its last line names that path.  Or its
    last line is an error and no file has changed: the exception of the
    walk (a listing failure loses every record already enriched), or of
    making the directory or opening the file.  Or its last line is the
    error the writing raised, and data/stories_<clock>.json is left with a
    part of the document. *)
Theorem main_outcome (w : World) (h : Host) (script : list Transport)
    (files : gmap string FileContent) :
  let path := "data/stories_" +:+ (strftime_now h +:+ ".json") in
  match main w h script files with
  | Finished lines files' =>
      (∃ e,
         files' = files
         ∧ last lines = Some (ErrorLine e)
         ∧ ((fetch_full_stories w 20 true 3 script).1 = Raised e
            ∨ ∃ site stories,
                (fetch_full_stories w 20 true 3 script).1
                  = Returned site stories
                ∧ (mkdir h "data" = Some e
                   ∨ (mkdir h "data" = None ∧ open_write h path = Some e))))
      ∨ (∃ e site stories,
           (fetch_full_stories w 20 true 3 script).1 = Returned site stories
           ∧ mkdir h "data" = None
           ∧ open_write h path = None
           ∧ dump h path (stories_document (isoformat_now h) stories)
             = Some e
           ∧ files' =
             <[path := Partial (stories_document (isoformat_now h) stories)]>
               files
           ∧ last lines = Some (ErrorLine e))
      ∨ (∃ site stories,
           (fetch_full_stories w 20 true 3 script).1 = Returned site stories
           ∧ (length stories ≤ 20)%nat
           ∧ dump h path (stories_document (isoformat_now h) stories) = None
           ∧ files' =
             <[path := Whole (stories_document (isoformat_now h) stories)]>
               files
           ∧ last lines = Some (SavedLine path))
  | Waiting lines => (fetch_full_stories w 20 true 3 script).1 = Awaiting
  end.
Proof.
  cbn zeta. unfold main.
  destruct (fetch_full_stories w 20 true 3 script) as [[site stories|e|] printed]
    eqn:Hrun; [| |done].
  2:{ left. exists e. split; [done|]. rewrite last_snoc. split; [done|].
      by left. }
  pose proof (fetch_loop_budget w 20 true 3 script 0 PyNone [] [] printed
                site stories ltac:(lia) Hrun) as Hlen.
  unfold save_stories_to_json. rewrite main_path.
  destruct (mkdir h "data") as [e|] eqn:Hmk.
  { left. exists e. split; [done|]. rewrite last_snoc. split; [done|].
    right. exists site, stories. split; [done|]. by left. }
  destruct (open_write h _) as [e|] eqn:Hop.
  { left. exists e. split; [done|]. rewrite last_snoc. split; [done|].
    right. exists site, stories. split; [done|]. by right. }
  cbn zeta. destruct (dump h _ _) as [e|] eqn:Hdump.
  { right; left. exists e, site, stories. by rewrite last_snoc. }
  right; right. exists site, stories. split; [done|]. split.
  { destruct site; lia. }
  split; [done|]. split; [done|]. by rewrite last_snoc.
Qed.

(** A machine whose encoder gives up: [main] prints the error last and
    leaves a partial file behind. *)
Example main_partial_file :
  main Sample.patchy shallow [Sample.page_end [Sample.story "one"]] ∅
  = Finished [FetchedLine 1; ErrorLine (OtherError "RecursionError")]
      {[ "data/stories_20240501_120000.json" :=
           Partial (stories_document (isoformat_now shallow)
                      [Sample.merged "one"]) ]}.
Proof. by vm_compute. Qed.

(** ** Sequential and parallel mode *)

Lemma iteration_modes (w : World) (count max_workers max_workers' : Z)
    (send : Transport) (n : nat) (cursor : PyVal)
    (all1 all2 : list PyVal) :
  fair w → 0 < max_workers → all1 ≡ₚ all2 →
  match iteration w count false max_workers' send n cursor all1,
        iteration w count true max_workers send n cursor all2 with
  | (Continue c1 a1, out1), (Continue c2 a2, out2) =>
      c1 = c2 ∧ a1 ≡ₚ a2 ∧ out1 ≡ₚ out2
  | (Stop o1, out1), (Stop o2, out2) => same_outcome (o1, out1) (o2, out2)
  | _, _ => False
  end.
Proof.
  intros Hfair Hpool Hall. unfold iteration, same_outcome.
  destruct (fetch_stories send "en" batch_size ["Bachelor"] cursor)
    as [resp|e]; [|done].
  unfold process_batch. rewrite (proj2 (Z.leb_gt _ _) Hpool).
  destruct (Py.getitem resp "items") as [iv|e] eqn:Hi; [|done].
  cbn [bind]. destruct (Py.iter iv) as [items|e]; [|done]. cbn [bind].
  rewrite !try_story_foldl. cbn [app].
  assert (Hb : survivors w items ≡ₚ survivors w (completion w n items)).
  { unfold survivors. by rewrite (Hfair n items). }
  assert (Hp : failures w items ≡ₚ failures w (completion w n items)).
  { unfold failures. by rewrite (Hfair n items). }
  assert (Hacc : all1 ++ survivors w items
                 ≡ₚ all2 ++ survivors w (completion w n items)).
  { by rewrite Hall, Hb. }
  unfold budget_reached. rewrite <- (Permutation_length Hacc).
  destruct (negb (count =? -1) && _) eqn:Hbud.
  { cbn [fst snd]. split; [done|]. unfold Py.slice_to.
    rewrite <- (Permutation_length Hacc).
    destruct (0 <=? count); rewrite !length_take;
      by rewrite (Permutation_length Hacc). }
  apply getitem_dict in Hi as (m & -> & _). cbn [Py.get].
  destruct (Py.truthy _); [done|]. by cbn.
Qed.

Lemma fetch_loop_modes (w : World) (count max_workers max_workers' : Z)
    (script : list Transport) :
  fair w → 0 < max_workers →
  ∀ n cursor all1 all2 printed1 printed2,
    all1 ≡ₚ all2 → printed1 ≡ₚ printed2 →
    same_outcome
      (fetch_loop w count false max_workers' script n cursor all1 printed1)
      (fetch_loop w count true max_workers script n cursor all2 printed2).
Proof.
  intros Hfair Hpool.
  induction script as [|send script IH];
    intros n cursor all1 all2 printed1 printed2 Hall Hprinted; [done|].
  cbn [fetch_loop].
  pose proof (iteration_modes w count max_workers max_workers' send n cursor
                all1 all2 Hfair Hpool Hall) as Hit.
  destruct (iteration w count false max_workers' send n cursor all1)
    as [[c1 a1|o1] out1];
    destruct (iteration w count true max_workers send n cursor all2)
    as [[c2 a2|o2] out2]; try done.
  - destruct Hit as (<- & Ha & Hout). apply IH; [done|]. by rewrite Hprinted, Hout.
  - destruct Hit as [Hout Ho]. split; [|done]. cbn [snd] in *.
    by rewrite Hprinted, Hout.
Qed.

(** X14. Sequential and parallel mode walk the same pages.  On the same
    replies, with a positive pool width and every future completing once,
    the two runs end the same way: both raise the same exception, or both
    return at the same exit with as many records (the same records up to
    order when the listing ran out), or both wait for a further reply; and
    they print the same exceptions up to order. *)
Theorem modes_agree (w : World) (count max_workers max_workers' : Z)
    (script : list Transport) :
  fair w → 0 < max_workers →
  same_outcome
    (fetch_full_stories w count false max_workers' script)
    (fetch_full_stories w count true max_workers script).
Proof.
  intros Hfair Hpool. by apply fetch_loop_modes.
Qed.

Lemma modes_agree_witness :
  same_outcome
    (fetch_full_stories Sample.patchy (-1) false 1
       [Sample.page_end [Sample.story "one"; Sample.story "gone";
                         Sample.story "three"]])
    (fetch_full_stories Sample.patchy (-1) true 4
       [Sample.page_end [Sample.story "one"; Sample.story "gone";
                         Sample.story "three"]]).
Proof. apply modes_agree; [apply patchy_fair | lia]. Defined.

(** ** Finding the article *)

Lemma first_some_app {A B} (f : A → option B) (l1 l2 : list A) :
  Soup.first_some f (l1 ++ l2) =
  match Soup.first_some f l1 with
  | Some r => Some r
  | None => Soup.first_some f l2
  end.
Proof.
  induction l1 as [|x l1 IH]; [done|]. cbn. by destruct (f x).
Qed.

(** Induction on a tree, with the property for all the children. *)
Lemma Node_nested_ind (P : Node → Prop) :
  (∀ s, P (Text s)) →
  (∀ s, P (Comment s)) →
  (∀ nm a ch, Forall P ch → P (Tag nm a ch)) →
  ∀ n, P n.
Proof.
  intros HT HC HTag. fix F 1. intros [s|s|nm a ch]; [apply HT | apply HC |].
  apply HTag. induction ch as [|c ch IH]; constructor; [apply F | apply IH].
Qed.

Lemma find_from_named (nm : string) (n found : Node) :
  Soup.find_from nm n = Some found → Soup.name found = Some nm.
Proof.
  induction n as [s|s|nm' a ch IH] using Node_nested_ind; cbn; [done..|].
  destruct (decide (nm' = nm)) as [->|_]; [by intros [= <-]|].
  induction IH as [|c ch Hc _ IHch]; cbn; [done|].
  destruct (Soup.find_from nm c) eqn:E; [|apply IHch].
  intros [= <-]. by apply Hc.
Qed.

(** X15. Only the first [article] tag in document order is read, wherever
    it sits in the page: whatever comes after the node that holds it (more
    articles included) and whatever surrounds it changes nothing, and
    [parse_story] answers as it would on a page made of that article
    alone. *)
Theorem first_article_only (slug : PyVal) (before after : list Node)
    (holder article : Node) :
  Soup.find "article" before = None →
  Soup.find_from "article" holder = Some article →
  Soup.name article = Some "article"
  ∧ parse_markup slug (before ++ holder :: after) = parse_markup slug [article]
  ∧ ∃ secs img,
      Segmenter.segment article = Ok (secs, img)
      ∧ parse_markup slug (before ++ holder :: after)
        = Ok (parsed_story secs img).
Proof.
  intros Hbefore Hholder.
  pose proof (find_from_named _ _ _ Hholder) as Hname.
  assert (Hfind : Soup.find "article" (before ++ holder :: after)
                  = Some article).
  { unfold Soup.find in *. rewrite first_some_app, Hbefore. cbn.
    by rewrite Hholder. }
  assert (Hself : Soup.find "article" [article] = Some article).
  { unfold Soup.find. cbn. destruct article as [| |nm a ch]; [done..|].
    cbn in Hname. injection Hname as ->. cbn. by rewrite decide_True. }
  split; [done|]. unfold parse_markup. rewrite Hfind, Hself.
  split; [done|]. rewrite segment_outline. by eexists _, _.
Qed.

Lemma first_article_only_witness :
  parse_markup (PyStr "s")
    [Text "lead"; Tag "body" ∅ [Tag "main" ∅ [Sample.article]];
     Sample.headless_article]
  = parse_markup (PyStr "s") [Sample.article].
Proof.
  destruct (first_article_only (PyStr "s") [Text "lead"]
              [Sample.headless_article]
              (Tag "body" ∅ [Tag "main" ∅ [Sample.article]])
              Sample.article) as (_ & Hsame & _); [done | done |].
  exact Hsame.
Defined.

(** ** What the walk heeds *)

Lemma advance_unheeded (st : SegState) (n : Node) :
  ¬ heeded n → advance st n = st.
Proof.
  unfold heeded, advance, Outline.image_of. intros H.
  rewrite !decide_False by tauto. done.
Qed.

Lemma walk_heeded (l : list Node) (st : SegState) :
  foldl advance st (filter heeded l) = foldl advance st l.
Proof.
  revert st. induction l as [|n l IH]; intros st; [done|].
  destruct (decide (heeded n)) as [H|H].
  - rewrite filter_cons_True by done. cbn [foldl]. apply IH.
  - rewrite filter_cons_False by done. cbn [foldl].
    by rewrite advance_unheeded.
Qed.

(** X16. Inside a wrapper only [h1], [p] and [figure] children count.  Two
    articles whose walks agree on those nodes give the same sections and
    main image: a sub-heading, a list, a quotation or a nested [div] among
    the children of a wrapper adds nothing, and the paragraphs or figures
    inside it are not reached. *)
Theorem only_three_kinds (article article' : Node) :
  filter heeded (Outline.walked article)
    = filter heeded (Outline.walked article') →
  Segmenter.segment article = Segmenter.segment article'.
Proof.
  intros H. rewrite !segment_walked.
  rewrite <- (walk_heeded (Outline.walked article)),
          <- (walk_heeded (Outline.walked article')).
  by rewrite H.
Qed.

Lemma only_three_kinds_witness :
  Segmenter.segment
    (Tag "article" ∅
       [Tag "div" ∅
          [Sample.heading_intro;
           Tag "h2" ∅ [Text "Sub-heading"];
           Tag "div" ∅ [Sample.paragraph "nested"; Sample.figure "n.png"];
           Tag "ul" ∅ [Tag "li" ∅ [Text "item"]];
           Sample.paragraph_hello]])
  = Segmenter.segment Sample.lead_paragraph_rest.
Proof. by apply only_three_kinds. Defined.

(** ** The records as input of [extract_scores] *)

Lemma collect_sections (other : PyVal → string) (secs : list StorySection) :
  Analysis.collect
    (λ section,
       let* title := Py.getitem section "title" in
       let* content := Py.getitem section "content" in
       Ok (Analysis.format other title
           +:+ (Str.newline +:+ Analysis.format other content)))
    (section_value <$> secs)
  = Ok ((λ s, title s +:+ (Str.newline +:+ content s)) <$> secs).
Proof.
  induction secs as [|s secs IH]; [done|].
  rewrite fmap_cons. cbn [Analysis.collect]. rewrite IH.
  unfold section_value. cbn [Py.getitem].
  by simplify_map_eq.
Qed.

(** X17. Every record [process_story] returns is a valid input of
    [extract_scores]: building the text sent to the model raises nothing
    (each section has its "title" and "content", both strings) and gives,
    for the sections parsed from the page, title, newline, body, block
    after block; and [extract_scores] returns the decoded answer of the
    model, or the all-[None] scores when the request or the decoding
    raised, the slug its error message needs being there. *)
Theorem merged_record_analysable (w : World) (story record : PyVal)
    (model : string → result PyVal) (other : PyVal → string) :
  process_story w story = Ok record →
  ∃ slug secs img,
    Py.getitem story "slug" = Ok slug
    ∧ parse_story w slug = Ok (parsed_story secs img)
    ∧ Analysis.full_content other record = Ok (Analysis.sections_text secs)
    ∧ Analysis.extract_scores model other record =
      Ok match model (Analysis.sections_text secs) with
         | Ok scores => scores
         | Raise _ => Analysis.no_scores
         end.
Proof.
  unfold process_story. intros Hrecord.
  destruct (Py.getitem story "slug") as [slug|] eqn:Hslug; [|done].
  apply getitem_dict in Hslug as (m & -> & Hslug). cbn [bind] in Hrecord.
  destruct (parse_story w slug) as [parsed|] eqn:Hparsed; [|done].
  destruct (parse_story_shape w slug parsed Hparsed) as (secs & img & ->).
  cbn [bind] in Hrecord. rewrite !parsed_story_getitem in Hrecord.
  cbn in Hrecord. injection Hrecord as <-.
  exists slug, secs, img. split; [done|]. split; [done|].
  assert (Hfull : Analysis.full_content other
            (PyDict (<["mainImage":=Py.of_option img]>
                       (<["sections":=PyList (section_value <$> secs)]> m)))
          = Ok (Analysis.sections_text secs)).
  { unfold Analysis.full_content. cbn [Py.getitem].
    rewrite lookup_insert_ne by done. rewrite lookup_insert_eq.
    cbn [bind Py.iter]. by rewrite collect_sections. }
  split; [done|]. unfold Analysis.extract_scores. rewrite Hfull. cbn [bind].
  destruct (model _); [done|]. cbn [Py.getitem].
  rewrite !lookup_insert_ne by done. by rewrite Hslug.
Qed.

Lemma merged_record_analysable_witness :
  process_story Sample.patchy (Sample.story "one") = Ok (Sample.merged "one")
  ∧ ∃ slug secs img,
      Py.getitem (Sample.story "one") "slug" = Ok slug
      ∧ parse_story Sample.patchy slug = Ok (parsed_story secs img)
      ∧ Analysis.full_content (λ _, "") (Sample.merged "one")
        = Ok (Analysis.sections_text secs)
      ∧ Analysis.extract_scores
          (λ _, Raise (OtherError "APIConnectionError")) (λ _, "")
          (Sample.merged "one")
        = Ok match Raise (OtherError "APIConnectionError") with
             | Ok scores => scores
             | Raise _ => Analysis.no_scores
             end.
Proof.
  split; [by vm_compute|].
  apply (merged_record_analysable Sample.patchy (Sample.story "one")
           (Sample.merged "one")
           (λ _, Raise (OtherError "APIConnectionError")) (λ _, "")).
  by vm_compute.
Defined.

(** Outside the records of the pipeline the handler itself can raise: when
    the model fails on a story that has sections but no "slug", the error
    message of line 68 raises [KeyError], which leaves [extract_scores]. *)
Example extract_scores_handler_raises :
  Analysis.extract_scores
    (λ _, Raise (OtherError "APIConnectionError")) (λ _, "")
    (PyDict {[ "sections" := PyList [] ]})
  = Raise (KeyError "slug").
Proof. by vm_compute. Qed.
